(** * PDF Job Traveler Processor: a shallow embedding of [mainapp.py]

    The development follows the three functions of the program:
    [sanitize_filename], [prompt_claude] (the Extractor) and
    [process_pdfs] (the batch renamer and packager), together with the
    [results_data] table built from the processing results.

    Modelling conventions.
    - A Python [str] is a [string]; its characters are the [ascii]
      characters of the string, and [len] is [String.length].
    - A Python [dict] is an insertion-ordered association list without
      duplicate keys ([dict_set] keeps the position of an existing key).
    - The temporary directory is a finite map from file names to file
      contents.  The operating system may refuse any operation on it
      (a name with a NUL character or longer than the file system
      allows, an existing destination on Windows, a full disk): what it
      refuses is an input of the model, [os_error].  An operation that
      is not refused has its effect on the map; a rename replaces its
      destination.
    - The ZIP archive is the list of its entries in the order they were
      written; [ZipFile.write] appends an entry and never removes one;
      closing the archive, which is held in memory, does not raise.
    - Objects that are shared and mutated (the dictionary returned by
      [prompt_claude]) live in a heap and are referred to by location.
    - Exceptions are the subclasses of Python's [Exception], the ones
      an [except Exception] clause catches.  Calls to the logger and to
      the user interface are recorded as events and do not raise.
    - The program calls [client.messages.create] once per file; the
      client of the SDK, built with its default settings, sends the
      request again after a failure that can be retried, up to
      [max_retries] times ([sdk_client]). *)

From stdpp Require Import gmap strings list fin_maps.
From Stdlib Require Import Ascii.

(** ** Python strings *)

Module PyStr.

(** [s.replace(old, new)] for one-character [old] and [new]. *)
Fixpoint replace (old new : ascii) (s : string) : string :=
  match s with
  | EmptyString => EmptyString
  | String c s' =>
      String (if Ascii.eqb c old then new else c) (replace old new s')
  end.

(** [s[:n]]. *)
Fixpoint take (n : nat) (s : string) : string :=
  match n, s with
  | S n', String c s' => String c (take n' s')
  | _, _ => EmptyString
  end.

(** [c in s] for a character [c]. *)
Fixpoint mem (c : ascii) (s : string) : bool :=
  match s with
  | EmptyString => false
  | String c' s' => Ascii.eqb c' c || mem c s'
  end.

(** Character-wise map, used to state what the replacements compute. *)
Fixpoint map (f : ascii → ascii) (s : string) : string :=
  match s with
  | EmptyString => EmptyString
  | String c s' => String (f c) (map f s')
  end.

(** [sep.join(l)]. *)
Fixpoint join (sep : string) (l : list string) : string :=
  match l with
  | [] => EmptyString
  | [x] => x
  | x :: l' => x +:+ sep +:+ join sep l'
  end.

(** [not s]: a string is falsy exactly when it is empty. *)
Definition is_empty (s : string) : bool :=
  match s with EmptyString => true | _ => false end.

End PyStr.

(** ** [sanitize_filename] *)

Definition invalid_chars : list ascii :=
  ["<"; ">"; ":"; "034"; "/"; "\"; "|"; "?"; "*"]%char.

Definition sanitize_filename (filename : string) : string :=
  let filename :=
    fold_left (λ filename char, PyStr.replace char "_" filename)
              invalid_chars filename in
  if (240 <? String.length filename)%nat then PyStr.take 240 filename
  else filename.

(** The character-level view of the replacement loop. *)
Definition is_invalid (c : ascii) : bool :=
  existsb (Ascii.eqb c) invalid_chars.

Definition scrub (c : ascii) : ascii :=
  if is_invalid c then "_"%char else c.

(** ** Python values, dictionaries and objects *)

(** A value stored under a key of the parsed JSON object.  The program
    looks at such a value in two ways only: its truth value ([not v])
    and its rendering in an f-string.  A string carries both; any other
    JSON value is represented by these two observations. *)
Inductive value :=
| VStr (s : string)
| VOther (truth : bool) (rendering : string).

Definition truthy (v : value) : bool :=
  match v with
  | VStr s => negb (PyStr.is_empty s)
  | VOther b _ => b
  end.

Definition format (v : value) : string :=
  match v with
  | VStr s => s
  | VOther _ r => r
  end.

Definition dict := list (string * value).

(** [d.get(k)] as an option; [k in d] is [is_Some]. *)
Fixpoint dict_get (k : string) (d : dict) : option value :=
  match d with
  | [] => None
  | (k', v) :: d' => if String.eqb k' k then Some v else dict_get k d'
  end.

(** [d[k] = v]: an existing key keeps its position. *)
Fixpoint dict_set (k : string) (v : value) (d : dict) : dict :=
  match d with
  | [] => [(k, v)]
  | (k', v') :: d' =>
      if String.eqb k' k then (k, v) :: d' else (k', v') :: dict_set k v d'
  end.

Definition dict_keys (d : dict) : list string := d.*1.

(** What [json.loads] may hand back: a JSON object; a JSON string or
    array, which supports [k in o] but neither [o[k]] nor [o[k] = v] for
    a string [k]; or [None], a boolean or a number, which support none
    of these.  Of the latter two kinds the program sees the truth value
    and, for strings and arrays, which keys [in] finds. *)
Inductive pyobj :=
| ODict (d : dict)
| OSeq (truth : bool) (contains : string → bool)
| OScalar (truth : bool).

Definition obj_truthy (o : pyobj) : bool :=
  match o with
  | ODict d => match d with [] => false | _ => true end
  | OSeq b _ => b
  | OScalar b => b
  end.

(** ** Exceptions, events and the effect monad *)

(** Subclasses of Python's [Exception]. *)
Inductive exn :=
| JSONDecodeError
| IndexError
| AttributeError
| TypeError
| KeyError
| FileNotFoundError
| ValueError
| OSError
| OtherException (what : string).

Inductive outcome (A : Type) :=
| Return (a : A)
| Raise (e : exn).
Arguments Return {A} a.
Arguments Raise {A} e.

Definition bytes := list Byte.byte.

Record request := {
  req_api_key : string;
  req_model : string;
  req_max_tokens : nat;
  req_document : string;
  req_text : string
}.

(** [ApiRequest call req] is the call of [client.messages.create] for
    the file at position [call]: one event per call of the client,
    however many requests the client sends for it. *)
Inductive event :=
| FileRead (name : string)
| FileSeek (name : string)
| ApiRequest (call : nat) (req : request)
| JsonLoads (text : string)
| StError
| StWarning
| LogDebug
| LogInfo
| LogWarning
| LogError
| Sleep (seconds : nat)
| Progress (done total : nat)
| StatusText (name : string) (position total : nat).

(** A computation yields the events it performed and either a value or
    an exception. *)
Definition M (A : Type) : Type := list event * outcome A.

#[global] Instance M_ret : MRet M := λ A a, ([], Return a).

#[global] Instance M_bind : MBind M := λ A B f m,
  match m with
  | (t, Return a) => let r := f a in (t ++ r.1, r.2)
  | (t, Raise e) => (t, Raise e)
  end.

Definition emit (ev : event) : M unit := ([ev], Return tt).

Definition raise {A} (e : exn) : M A := ([], Raise e).

(** An external call: its event, then its given outcome. *)
Definition perform {A} (ev : event) (r : outcome A) : M A := ([ev], r).

(** [try: m except ...: handler]; a handler answers [None] for the
    exceptions its [except] clause does not name. *)
Definition try_except {A} (m : M A) (handler : exn → option (M A)) : M A :=
  match m with
  | (t, Raise e) =>
      match handler e with
      | Some h => (t ++ h.1, h.2)
      | None => (t, Raise e)
      end
  | _ => m
  end.

Definition except_Exception {A} (h : exn → M A) : exn → option (M A) :=
  λ e, Some (h e).

Definition except_JSONDecodeError {A} (h : exn → M A)
  : exn → option (M A) :=
  λ e, match e with JSONDecodeError => Some (h e) | _ => None end.

(** Runs a [try] block whose [except] clause leaves the function: the
    exception becomes a value the caller branches on. *)
Definition attempt {A} (m : M A) : M (outcome A) := (m.1, Return m.2).

(** ** Files and messages *)

(** An uploaded file object: [name], [getbuffer()], and the outcomes of
    its [read()] and [seek(0)] methods. *)
Record uploaded_file := {
  name : string;
  getbuffer : bytes;
  read : outcome bytes;
  seek : outcome unit
}.

Inductive content_block :=
| TextBlock (text : string)
| OtherBlock.

Definition message := list content_block.

(** [message.content[0].text]. *)
Definition content0_text (msg : message) : M string :=
  match msg with
  | [] => raise IndexError
  | TextBlock text :: _ => mret text
  | OtherBlock :: _ => raise AttributeError
  end.

Definition nl : string := String "010" EmptyString.
Definition dq : string := String "034" EmptyString.

Definition prompt : string :=
  PyStr.join nl [
    EmptyString;
    "    I will provide you with a PDF file. This file has a job traveler document. I want you to extract only the following entities from the document:";
    "    1. Customer";
    "    2. Part Number";
    "    3. Description";
    "    I want you to return the extracted data in a JSON format. The JSON should have the following structure:";
    "    {";
    "        " +:+ dq +:+ "Customer" +:+ dq +:+ ": " +:+ dq +:+ "customer_name" +:+ dq +:+ ",";
    "        " +:+ dq +:+ "Part Number" +:+ dq +:+ ": " +:+ dq +:+ "part_number" +:+ dq +:+ ",";
    "        " +:+ dq +:+ "Description" +:+ dq +:+ ": " +:+ dq +:+ "description" +:+ dq;
    "    }";
    "    The values should be the actual values extracted from the document. Just return the JSON object without any additional text or explanation.";
    "    If you cannot find any of the entities, return an empty string for that entity.";
    "    "
  ].

(** ** The temporary directory and the archive *)

Abbreviation directory := (gmap string bytes).

(** The operations on the temporary directory and the archive that
    the operating system may refuse. *)
Inductive fs_op :=
| MakeTempDir
| OpenWrite (path : string)
| RenameTo (src dst : string)
| ZipWrite (path arcname : string)
| CleanupTempDir.

(** [open(path, "wb")] followed by [f.write(data)]; [refused] is the
    exception of the operating system, if it refuses. *)
Definition write_file (refused : option exn) (path : string) (data : bytes)
  (fs : directory) : M directory :=
  match refused with
  | Some e => raise e
  | None => mret (<[path := data]> fs)
  end.

(** [src.rename(dst)]: the source must exist; unless the operating
    system refuses, the destination is replaced. *)
Definition rename (refused : option exn) (src dst : string)
  (fs : directory) : M directory :=
  match fs !! src with
  | None => raise FileNotFoundError
  | Some data =>
      match refused with
      | Some e => raise e
      | None => mret (<[dst := data]> (delete src fs))
      end
  end.

Abbreviation archive := (list (string * bytes)).

(** [zip_file.write(path, arcname=arcname)]: unless it is refused, it
    reads the file and appends an entry; entries already written
    stay. *)
Definition zip_write (refused : option exn) (path arcname : string)
  (fs : directory) (zip : archive) : M archive :=
  match fs !! path with
  | None => raise FileNotFoundError
  | Some data =>
      match refused with
      | Some e => raise e
      | None => mret (zip ++ [(arcname, data)])
      end
  end.

(** [with tempfile.TemporaryDirectory(): body]: the directory is made,
    the body runs, and the directory is removed whether the body
    returned or raised; an exception of the removal is the one that
    leaves the block. *)
Definition with_temp_dir {A} (refused_make refused_cleanup : option exn)
  (body : M A) : M A :=
  match refused_make with
  | Some e => raise e
  | None =>
      match refused_cleanup with
      | Some e => (body.1, Raise e)
      | None => body
      end
  end.

(** Reading an archive entry by name resolves to the entry written
    last under that name. *)
Fixpoint zip_read (arcname : string) (zip : archive) : option bytes :=
  match zip with
  | [] => None
  | (n, data) :: zip' =>
      match zip_read arcname zip' with
      | Some later => Some later
      | None => if String.eqb n arcname then Some data else None
      end
  end.

(** ** The heap of shared objects *)

Abbreviation loc := nat.
Abbreviation heap := (list pyobj).

Definition alloc (o : pyobj) (h : heap) : loc * heap :=
  (length h, h ++ [o]).

(** [o[k] = v] on the object at [l]; only a dictionary supports it. *)
Definition setitem (l : loc) (k : string) (v : value) (h : heap) : M heap :=
  match h !! l with
  | Some (ODict d) => mret (<[l := ODict (dict_set k v d)]> h)
  | _ => raise TypeError
  end.

(** [o[k]] on the object at [l]. *)
Definition getitem (l : loc) (k : string) (h : heap) : M value :=
  match h !! l with
  | Some (ODict d) =>
      match dict_get k d with
      | Some v => mret v
      | None => raise KeyError
      end
  | _ => raise TypeError
  end.

(** [k not in o or not o[k]] on the object at [l]. *)
Definition is_missing (l : loc) (k : string) (h : heap) : M bool :=
  match h !! l with
  | Some (ODict d) =>
      match dict_get k d with
      | None => mret true
      | Some v => mret (negb (truthy v))
      end
  | Some (OSeq _ contains) =>
      if contains k then raise TypeError else mret true
  | _ => raise TypeError
  end.

(** [not o] on the object at [l]. *)
Definition is_falsy (l : loc) (h : heap) : bool :=
  match h !! l with
  | Some o => negb (obj_truthy o)
  | None => true
  end.

(** ** The program *)

Section Program.

(** The world outside the program: what the call of
    [client.messages.create] for the [call]-th file of a batch gives
    (equal requests may be answered differently); [json.loads];
    [base64.b64encode(...).decode("utf-8")]; and the operations the
    operating system refuses while the file at a position of the batch
    is processed (position 0 for the temporary directory itself), with
    the exception it raises. *)
Variable service : nat → request → outcome message.
Variable json_loads : string → outcome pyobj.
Variable b64encode : bytes → string.
Variable os_error : nat → fs_op → option exn.

(** *** [prompt_claude] *)

(** [client.messages.create(...)]: one call of the client, recorded as
    one event; the requests the client sends for the call are those of
    [sdk_request]. *)
Definition messages_create (call : nat) (api_key pdf_data : string)
  : M message :=
  let req := {| req_api_key := api_key;
                req_model := "claude-3-5-sonnet-20241022";
                req_max_tokens := 1024;
                req_document := pdf_data;
                req_text := prompt |} in
  perform (ApiRequest call req) (service call req).

Definition prompt_claude (call : nat) (pdf_file : uploaded_file)
  (api_key : string) : M pyobj :=
  r ← attempt (
    pdf_bytes ← perform (FileRead (name pdf_file)) (read pdf_file);
    let pdf_data := b64encode pdf_bytes in
    perform (FileSeek (name pdf_file)) (seek pdf_file);;
    mret pdf_data);
  match r with
  | Raise e =>
      emit StError;; emit LogError;;
      mret (ODict [])
  | Return pdf_data =>
      try_except (
        emit LogDebug;;
        msg ← messages_create call api_key pdf_data;
        try_except (
          text ← content0_text msg;
          result ← perform (JsonLoads text) (json_loads text);
          emit LogInfo;;
          mret result)
        (except_JSONDecodeError (λ e,
          emit LogError;; emit LogError;;
          mret (ODict []))))
      (except_Exception (λ e,
        emit LogError;; emit StError;;
        mret (ODict [])))
  end.

(** *** [process_pdfs] *)

Record result_info := {
  original_name : string;
  extracted_data : loc;
  new_name : string;
  status : string
}.

(** The objects the loop of [process_pdfs] works on. *)
Record batch := {
  temp_dir : directory;
  zip_file : archive;
  results : list result_info;
  objects : heap
}.

Definition required_fields : list string :=
  ["Customer"; "Part Number"; "Description"].

(** [[field for field in fields if field not in o or not o[field]]]. *)
Fixpoint missing_among (fields : list string) (l : loc) (h : heap)
  : M (list string) :=
  match fields with
  | [] => mret []
  | field :: fields' =>
      b ← is_missing l field h;
      rest ← missing_among fields' l h;
      mret (if b : bool then field :: rest else rest)
  end.

(** [for field in fields: o[field] = "Unknown"]. *)
Fixpoint fill_unknown (fields : list string) (l : loc) (h : heap)
  : M heap :=
  match fields with
  | [] => mret h
  | field :: fields' =>
      h' ← setitem l field (VStr "Unknown") h;
      fill_unknown fields' l h'
  end.

Definition status_of (missing_fields : list string) : string :=
  match missing_fields with
  | [] => "Success"
  | _ => "Partial success (missing: "
           +:+ PyStr.join ", " missing_fields +:+ ")"
  end.

(** One iteration of the [for] loop, for the file at position [i] of
    [total]. *)
Definition loop_body (api_key : string) (total i : nat)
  (uploaded_file : uploaded_file) (st : batch) : M batch :=
  emit (Progress i total);;
  emit (StatusText (name uploaded_file) (i + 1) total);;
  fs ← write_file (os_error i (OpenWrite (name uploaded_file)))
         (name uploaded_file) (getbuffer uploaded_file) (temp_dir st);
  o ← prompt_claude i uploaded_file api_key;
  emit (Sleep 4);;
  let '(data, h) := alloc o (objects st) in
  if is_falsy data h then
    mret {| temp_dir := fs;
            zip_file := zip_file st;
            results := results st ++
              [{| original_name := name uploaded_file;
                  extracted_data := data;
                  new_name := EmptyString;
                  status := "Error: No data extracted" |}];
            objects := h |}
  else
    missing_fields ← missing_among required_fields data h;
    h ← match missing_fields with
        | [] => mret h
        | _ => emit LogWarning;; fill_unknown missing_fields data h
        end;
    part_number ← getitem data "Part Number" h;
    customer ← getitem data "Customer" h;
    description ← getitem data "Description" h;
    let new_filename :=
      format part_number +:+ " " +:+ format customer +:+ " "
        +:+ format description +:+ ".pdf" in
    let new_filename := sanitize_filename new_filename in
    fs ← rename (os_error i (RenameTo (name uploaded_file) new_filename))
           (name uploaded_file) new_filename fs;
    emit LogInfo;;
    zip ← zip_write (os_error i (ZipWrite new_filename new_filename))
            new_filename new_filename fs (zip_file st);
    mret {| temp_dir := fs;
            zip_file := zip;
            results := results st ++
              [{| original_name := name uploaded_file;
                  extracted_data := data;
                  new_name := new_filename;
                  status := status_of missing_fields |}];
            objects := h |}.

Fixpoint loop (api_key : string) (total i : nat)
  (uploaded_files : list uploaded_file) (st : batch) : M batch :=
  match uploaded_files with
  | [] => mret st
  | uploaded_file :: rest =>
      st' ← loop_body api_key total i uploaded_file st;
      loop api_key total (S i) rest st'
  end.

Definition empty_batch : batch :=
  {| temp_dir := ∅; zip_file := []; results := []; objects := [] |}.

(** The value returned is [None], or the sealed archive with the
    results; the heap gives the objects the results refer to. *)
Definition process_pdfs (uploaded_files : list uploaded_file)
  (api_key : string) : M (option (archive * list result_info * heap)) :=
  match uploaded_files with
  | [] => emit StWarning;; mret None
  | _ =>
      with_temp_dir (os_error 0 MakeTempDir) (os_error 0 CleanupTempDir) (
        st ← loop api_key (length uploaded_files) 0 uploaded_files
               empty_batch;
        emit (Progress 1 1);;
        emit (StatusText "Processing complete!" 0 0);;
        mret (Some (zip_file st, results st, objects st)))
  end.

(** *** The results table *)

Record row := {
  row_original_filename : string;
  row_new_filename : string;
  row_status : string;
  row_customer : value;
  row_part_number : value;
  row_description : value
}.

(** [o.get(k, "")] on the object at [l]. *)
Definition get_or_empty (l : loc) (k : string) (h : heap) : M value :=
  match h !! l with
  | Some (ODict d) => mret (default (VStr EmptyString) (dict_get k d))
  | _ => raise AttributeError
  end.

Definition results_row (h : heap) (result : result_info) : M row :=
  customer ← get_or_empty (extracted_data result) "Customer" h;
  part_number ← get_or_empty (extracted_data result) "Part Number" h;
  description ← get_or_empty (extracted_data result) "Description" h;
  mret {| row_original_filename := original_name result;
          row_new_filename :=
            if PyStr.is_empty (new_name result) then "N/A"
            else new_name result;
          row_status := status result;
          row_customer := customer;
          row_part_number := part_number;
          row_description := description |}.

Fixpoint results_data (h : heap) (processing_results : list result_info)
  : M (list row) :=
  match processing_results with
  | [] => mret []
  | result :: rest =>
      r ← results_row h result;
      rs ← results_data h rest;
      mret (r :: rs)
  end.

(** *** Vocabulary of the properties *)

(** The number of calls of [client.messages.create] in a trace. *)
Definition client_calls (t : list event) : nat :=
  length (List.filter
            (λ ev, match ev with ApiRequest _ _ => true | _ => false end) t).

(** The ways an extraction can fail: the file cannot be read or
    rewound, the service call raises, the answer has no leading text
    block, or its text is not parsed. *)
Inductive extraction_failure (call : nat) (pdf_file : uploaded_file)
  (api_key : string) : Prop :=
| read_failure e :
    read pdf_file = Raise e →
    extraction_failure call pdf_file api_key
| seek_failure e :
    seek pdf_file = Raise e →
    extraction_failure call pdf_file api_key
| service_failure pdf_bytes e :
    read pdf_file = Return pdf_bytes →
    (messages_create call api_key (b64encode pdf_bytes)).2 = Raise e →
    extraction_failure call pdf_file api_key
| answer_failure pdf_bytes msg e :
    read pdf_file = Return pdf_bytes →
    (messages_create call api_key (b64encode pdf_bytes)).2 = Return msg →
    (content0_text msg).2 = Raise e →
    extraction_failure call pdf_file api_key
| parse_failure pdf_bytes msg text e :
    read pdf_file = Return pdf_bytes →
    (messages_create call api_key (b64encode pdf_bytes)).2 = Return msg →
    (content0_text msg).2 = Return text →
    json_loads text = Raise e →
    extraction_failure call pdf_file api_key.

(** A required field counts as missing when its key is absent or its
    value is falsy. *)
Definition field_missing (d : dict) (field : string) : bool :=
  match dict_get field d with
  | None => true
  | Some v => negb (truthy v)
  end.

Definition missing_fields_of (d : dict) : list string :=
  List.filter (field_missing d) required_fields.

(** The text a field contributes to the new file name. *)
Definition field_text (d : dict) (field : string) : string :=
  match dict_get field d with
  | None => "Unknown"
  | Some v => if truthy v then format v else "Unknown"
  end.

Definition new_filename_of (d : dict) : string :=
  sanitize_filename
    (field_text d "Part Number" +:+ " " +:+ field_text d "Customer" +:+ " "
       +:+ field_text d "Description" +:+ ".pdf").

(** The dictionary after the placeholder has been written into it. *)
Definition filled (d : dict) : dict :=
  fold_left (λ d field, dict_set field (VStr "Unknown") d)
            (missing_fields_of d) d.

(** A truthy object that is not a dictionary makes the loop raise. *)
Definition unprocessable (o : pyobj) : bool :=
  match o with
  | ODict _ => false
  | OSeq b _ | OScalar b => b
  end.

(** What one file contributes, as a function of the extracted object. *)
Definition file_result (l : loc) (f : uploaded_file) (o : pyobj)
  : result_info :=
  {| original_name := name f;
     extracted_data := l;
     new_name := match o with
                 | ODict ((_ :: _) as d) => new_filename_of d
                 | _ => EmptyString
                 end;
     status := match o with
               | ODict ((_ :: _) as d) => status_of (missing_fields_of d)
               | _ => "Error: No data extracted"
               end |}.

Definition file_object (o : pyobj) : pyobj :=
  match o with
  | ODict ((_ :: _) as d) => ODict (filled d)
  | _ => o
  end.

Definition file_entries (f : uploaded_file) (o : pyobj) : archive :=
  match o with
  | ODict ((_ :: _) as d) => [(new_filename_of d, getbuffer f)]
  | _ => []
  end.

Definition file_directory (f : uploaded_file) (o : pyobj) (fs : directory)
  : directory :=
  match o with
  | ODict ((_ :: _) as d) =>
      <[new_filename_of d := getbuffer f]>
        (delete (name f) (<[name f := getbuffer f]> fs))
  | _ => <[name f := getbuffer f]> fs
  end.

(** The object [prompt_claude] returns for the file at position [call]. *)
Definition extracted (call : nat) (f : uploaded_file) (api_key : string)
  : pyobj :=
  match (prompt_claude call f api_key).2 with
  | Return o => o
  | Raise _ => ODict []
  end.

(** The exception that ends the iteration for the file [f] at position
    [i] whose extracted object is [o], if one does: writing the file is
    refused, or the object is unprocessable, or the renaming or the
    writing into the archive is refused. *)
Definition file_failure (i : nat) (f : uploaded_file) (o : pyobj)
  : option exn :=
  match os_error i (OpenWrite (name f)) with
  | Some e => Some e
  | None =>
      if unprocessable o then Some TypeError
      else
        match o with
        | ODict ((_ :: _) as d) =>
            match os_error i (RenameTo (name f) (new_filename_of d)) with
            | Some e => Some e
            | None =>
                os_error i (ZipWrite (new_filename_of d) (new_filename_of d))
            end
        | _ => None
        end
  end.

(** The entry a processed file has in the archive, read off its result. *)
Definition archived (r : result_info) (f : uploaded_file) : archive :=
  if decide (status r = "Error: No data extracted") then []
  else [(new_name r, getbuffer f)].

(** The missing fields in the order Customer, Part Number, Description. *)
Definition canonical_missing (customer part_number description : bool)
  : list string :=
  (if customer then ["Customer"] else [])
  ++ (if part_number then ["Part Number"] else [])
  ++ (if description then ["Description"] else []).

End Program.

(** ** The client of the SDK *)

(** [anthropic.Client(api_key=api_key)] is built with the default
    settings of the SDK, so [client.messages.create] sends its request
    again after a failure that can be retried (no connection, a
    timeout, the statuses 408, 409, 429 and 500 and above), at most
    [max_retries] more times, and raises what the last attempt gave;
    any other failure is raised at once. *)
Inductive http_reply :=
| HttpOk (msg : message)
| HttpRetryable (e : exn)
| HttpFatal (e : exn).

Definition max_retries : nat := 2.

(** The requests sent for one call, and what the call gives.
    [transport call attempt req] is the reply to the [attempt]-th
    request of the call for the file at position [call]. *)
Fixpoint sdk_request (transport : nat → nat → request → http_reply)
  (call : nat) (req : request) (retries_left attempt : nat)
  : nat * outcome message :=
  match transport call attempt req with
  | HttpOk msg => (1, Return msg)
  | HttpFatal e => (1, Raise e)
  | HttpRetryable e =>
      match retries_left with
      | 0 => (1, Raise e)
      | S retries_left' =>
          let r := sdk_request transport call req retries_left' (S attempt) in
          (S r.1, r.2)
      end
  end.

(** What [client.messages.create] gives over a transport. *)
Definition sdk_client (transport : nat → nat → request → http_reply)
  : nat → request → outcome message :=
  λ call req, (sdk_request transport call req max_retries 0).2.

(** The requests sent over the transport in a trace. *)
Definition http_requests (transport : nat → nat → request → http_reply)
  (t : list event) : nat :=
  foldr (λ ev n,
           match ev with
           | ApiRequest call req =>
               (sdk_request transport call req max_retries 0).1 + n
           | _ => n
           end) 0 t.

(** ** Scenarios *)

(** Concrete files, services and parsers for the scenarios the
    properties are run on. *)

Definition pdf (n : string) (data : bytes) : uploaded_file :=
  {| name := n; getbuffer := data; read := Return data; seek := Return tt |}.

(** A service that answers the request of the [call]-th file with the
    [call]-th entry of a script. *)
Definition scripted_service (script : list (outcome message))
  : nat → request → outcome message :=
  λ call _, default (Raise (OtherException "no answer")) (script !! call).

(** A parser that knows the texts of a table and rejects every other
    text. *)
Fixpoint table_loads (table : list (string * pyobj)) (text : string)
  : outcome pyobj :=
  match table with
  | [] => Raise JSONDecodeError
  | (t, o) :: table' =>
      if String.eqb t text then Return o else table_loads table' text
  end.

(** A stand-in for the transport encoding of the document. *)
Definition plain_encoding (data : bytes) : string :=
  String.string_of_list_byte data.

Definition says (text : string) : outcome message :=
  Return [TextBlock text].

Definition acme_record : dict :=
  [("Customer", VStr "Acme"); ("Part Number", VStr "PN-100");
   ("Description", VStr "Bracket")].

Definition no_description_record : dict :=
  [("Customer", VStr "Acme"); ("Part Number", VStr "PN-100");
   ("Description", VStr EmptyString)].

Definition only_part_number_record : dict :=
  [("Customer", VStr EmptyString); ("Part Number", VStr "PN-100");
   ("Description", VStr EmptyString)].

Definition known_answers : list (string * pyobj) :=
  [("acme", ODict acme_record);
   ("no description", ODict no_description_record);
   ("only part number", ODict only_part_number_record);
   ("nothing", ODict [])].

Definition job1 : uploaded_file :=
  pdf "job1.pdf" [Byte.x25; Byte.x50; Byte.x44; Byte.x46; Byte.x31].

Definition job2 : uploaded_file :=
  pdf "job2.pdf" [Byte.x25; Byte.x50; Byte.x44; Byte.x46; Byte.x32].

Definition result (original : string) (data : loc) (new : string)
  (st : string) : result_info :=
  {| original_name := original; extracted_data := data;
     new_name := new; status := st |}.

(** An operating system that refuses nothing. *)
Definition accepting : nat → fs_op → option exn := λ _ _, None.

(** A transport on which every request fails in a way that can be
    retried. *)
Definition overloaded : nat → nat → request → http_reply :=
  λ _ _ _, HttpRetryable (OtherException "overloaded").

Definition run_batch (script : list (outcome message))
  (files : list uploaded_file)
  : outcome (option (archive * list result_info * heap)) :=
  (process_pdfs (scripted_service script) (table_loads known_answers)
     plain_encoding accepting files "key").2.

Definition run_extractor (script : list (outcome message)) (call : nat)
  (f : uploaded_file) : outcome pyobj :=
  (prompt_claude (scripted_service script) (table_loads known_answers)
     plain_encoding call f "key").2.

(** ** The page around the program *)

(** The script around the three functions: it resolves the API key,
    offers the button and, when the button is pressed, runs the batch
    and shows the download and the table.  The values the widgets
    return, the secrets store and the environment are its inputs. *)

Inductive notice :=
| KeyFromSecrets
| KeyFromEnvironment
| ProcessingComplete.

(** What the page shows or does, besides the events of the program's
    functions. *)
Inductive page_event :=
| Core (ev : event)
| StSuccess (n : notice)
| StErrorNoKey
| LoadDotenv
| StInfoSelected (count : nat)
| DownloadButton (zip : archive)
| StSubheader
| Dataframe (rows : list row)
| StErrorProcessing (e : exn)
| LogProcessingError (e : exn).

Definition P (A : Type) : Type := list page_event * outcome A.

#[global] Instance P_ret : MRet P := λ A a, ([], Return a).

#[global] Instance P_bind : MBind P := λ A B f m,
  match m with
  | (t, Return a) => let r := f a in (t ++ r.1, r.2)
  | (t, Raise e) => (t, Raise e)
  end.

Definition display (ev : page_event) : P unit := ([ev], Return tt).

(** A call into the program, with its events. *)
Definition call {A} (m : M A) : P A := (Core <$> m.1, m.2).

(** [try: m except Exception as e: handler e]. *)
Definition catching {A} (m : P A) (handler : exn → P A) : P A :=
  match m with
  | (t, Raise e) => let h := handler e in (t ++ h.1, h.2)
  | _ => m
  end.

(** [when b: m]. *)
Definition when (b : bool) (m : P unit) : P unit :=
  if b then m else mret tt.

(** The truth value of the key: [None] and the empty string are
    falsy. *)
Definition key_truthy (api_key : option string) : bool :=
  match api_key with
  | Some k => negb (PyStr.is_empty k)
  | None => false
  end.

(** The key: the text the user typed, else the entry of the secrets
    store, else the environment variable.  [secrets] is the outcome of
    looking the key up in the store, [getenv] what the environment
    holds once the environment file is loaded. *)
Definition resolve_api_key (manual : string) (show_api_status : bool)
  (secrets : outcome (option string)) (getenv : option string)
  : P (option string) :=
  api_key ←
    (if PyStr.is_empty manual then
       api_key ←
         match secrets with
         | Raise e => ([], Raise e)
         | Return (Some secret) =>
             when show_api_status (display (StSuccess KeyFromSecrets));;
             mret (Some secret)
         | Return None => mret (Some manual)
         end;
       if key_truthy api_key then mret api_key
       else
         display LoadDotenv;;
         let api_key := getenv in
         when (key_truthy api_key && show_api_status)
              (display (StSuccess KeyFromEnvironment));;
         mret api_key
     else mret (Some manual));
  when (show_api_status && negb (key_truthy api_key)) (display StErrorNoKey);;
  mret api_key.

(** [st.button]: a disabled button is never pressed. *)
Definition st_button (clicked disabled : bool) : bool :=
  clicked && negb disabled.

Section Page.

Variable service : nat → request → outcome message.
Variable json_loads : string → outcome pyobj.
Variable b64encode : bytes → string.
Variable os_error : nat → fs_op → option exn.

(** The body of [if process_button:]; the handler shows the exception
    and logs it. *)
Definition handle_process (uploaded_files : list uploaded_file)
  (api_key : string) : P unit :=
  catching (
    result ← call (process_pdfs service json_loads b64encode os_error
                     uploaded_files api_key);
    match result with
    | None => mret tt
    | Some (zip_buffer, processing_results, h) =>
        display (StSuccess ProcessingComplete);;
        display (DownloadButton zip_buffer);;
        display StSubheader;;
        rows ← call (results_data h processing_results);
        display (Dataframe rows)
    end)
  (λ e, display (StErrorProcessing e);; display (LogProcessingError e)).

(** One run of the first tab of the page.  The button is enabled only
    with a truthy key, so the handler is given a string. *)
Definition page (manual : string) (show_api_status : bool)
  (secrets : outcome (option string)) (getenv : option string)
  (uploaded_files : list uploaded_file) (clicked : bool) : P unit :=
  api_key ← resolve_api_key manual show_api_status secrets getenv;
  when (negb (bool_decide (uploaded_files = [])))
       (display (StInfoSelected (length uploaded_files)));;
  let disabled :=
    negb (key_truthy api_key) || bool_decide (uploaded_files = []) in
  if st_button clicked disabled then
    match api_key with
    | Some k => handle_process uploaded_files k
    | None => mret tt
    end
  else mret tt.

End Page.

(** ** Vocabulary of the further properties *)

(** The request [prompt_claude] sends for the bytes it read. *)
Definition request_for (b64encode : bytes → string) (api_key : string)
  (pdf_bytes : bytes) : request :=
  {| req_api_key := api_key;
     req_model := "claude-3-5-sonnet-20241022";
     req_max_tokens := 1024;
     req_document := b64encode pdf_bytes;
     req_text := prompt |}.

(** The seconds a trace sleeps. *)
Definition slept (t : list event) : nat :=
  foldr (λ ev n, match ev with Sleep s => s + n | _ => n end) 0 t.

(** Whether a trace shows an error to the user. *)
Definition shows_error (t : list event) : bool :=
  existsb (λ ev, match ev with StError => true | _ => false end) t.

(** The nine statuses. *)
Definition statuses : list string :=
  ["Error: No data extracted";
   "Success";
   "Partial success (missing: Customer)";
   "Partial success (missing: Part Number)";
   "Partial success (missing: Description)";
   "Partial success (missing: Customer, Part Number)";
   "Partial success (missing: Customer, Description)";
   "Partial success (missing: Part Number, Description)";
   "Partial success (missing: Customer, Part Number, Description)"].

(** The row of the table for a result whose record is [d]. *)
Definition row_of (d : dict) (r : result_info) : row :=
  {| row_original_filename := original_name r;
     row_new_filename :=
       if PyStr.is_empty (new_name r) then "N/A" else new_name r;
     row_status := status r;
     row_customer := default (VStr EmptyString) (dict_get "Customer" d);
     row_part_number :=
       default (VStr EmptyString) (dict_get "Part Number" d);
     row_description :=
       default (VStr EmptyString) (dict_get "Description" d) |}.

(** What the events of a batch run with [api_key] on [n] files may be:
    the warning belongs to the empty batch, and every request carries
    the key. *)
Definition batch_event (api_key : string) (n : nat) (ev : event) : Prop :=
  match ev with
  | StWarning => n = 0
  | ApiRequest _ req => req_api_key req = api_key
  | Sleep s => s = 4
  | _ => True
  end.

(** ** Further scenarios *)

Fixpoint copies (n : nat) (c : ascii) : string :=
  match n with
  | 0 => EmptyString
  | S n' => String c (copies n' c)
  end.

Definition unreadable : uploaded_file :=
  {| name := "lost.pdf"; getbuffer := [];
     read := Raise (OtherException "closed file"); seek := Return tt |}.

Definition notes_record : dict := [("Notes", VStr "see drawing")].

(** Answers that are not objects: a JSON array and JSON [null]. *)
Definition further_answers : list (string * pyobj) :=
  [("acme", ODict acme_record);
   ("notes", ODict notes_record);
   ("array", OSeq true (λ _, false));
   ("null", OScalar false)].

(** A transport that answers the [attempt]-th request of the call for
    the [call]-th file with an entry of a script. *)
Definition scripted_transport (script : list (list http_reply))
  : nat → nat → request → http_reply :=
  λ call attempt _,
    default (HttpFatal (OtherException "no answer"))
            (script !! call ≫= λ replies, replies !! attempt).

(** An operating system that refuses to rename the file at position
    1, as Windows does when the new name exists. *)
Definition refusing_second_rename : nat → fs_op → option exn :=
  λ i op,
    match i, op with
    | 1, RenameTo _ _ => Some OSError
    | _, _ => None
    end.

Definition run_further (script : list (outcome message))
  (files : list uploaded_file)
  : M (option (archive * list result_info * heap)) :=
  process_pdfs (scripted_service script) (table_loads further_answers)
    plain_encoding accepting files "key".

(** * Properties *)

(** ** The filename sanitizer *)

Section Sanitize.

Lemma replace_map old new s :
  PyStr.replace old new s
  = PyStr.map (λ c, if Ascii.eqb c old then new else c) s.
Proof. induction s as [|c s IH]; simpl; [done | by rewrite IH]. Qed.

Lemma map_map f g s :
  PyStr.map f (PyStr.map g s) = PyStr.map (λ c, f (g c)) s.
Proof. induction s as [|c s IH]; simpl; [done | by rewrite IH]. Qed.

Lemma map_ext f g s :
  (∀ c, f c = g c) → PyStr.map f s = PyStr.map g s.
Proof. intros E. induction s as [|c s IH]; simpl; [done | by rewrite E, IH]. Qed.

Lemma map_take f n s :
  PyStr.map f (PyStr.take n s) = PyStr.take n (PyStr.map f s).
Proof.
  revert s. induction n as [|n IH]; intros [|c s]; simpl; try done.
  by rewrite IH.
Qed.

Lemma take_length n s :
  String.length (PyStr.take n s) = min n (String.length s).
Proof.
  revert s. induction n as [|n IH]; intros [|c s]; simpl; try done.
  by rewrite IH.
Qed.

Lemma take_all n s : String.length s ≤ n → PyStr.take n s = s.
Proof.
  revert s. induction n as [|n IH]; intros [|c s]; simpl; try done; try lia.
  intros H. rewrite IH; [done | lia].
Qed.

Lemma mem_take c n s :
  PyStr.mem c (PyStr.take n s) = true → PyStr.mem c s = true.
Proof.
  revert s. induction n as [|n IH]; intros [|c' s]; simpl; try done.
  destruct (Ascii.eqb c' c); simpl; [done | apply IH].
Qed.

Lemma mem_map_scrub c s :
  is_invalid c = true → PyStr.mem c (PyStr.map scrub s) = false.
Proof.
  intros Hc. induction s as [|c' s IH]; simpl; [done |].
  rewrite IH, orb_false_r. apply Ascii.eqb_neq. intros E.
  unfold scrub in E. destruct (is_invalid c') eqn:Hc'.
  - subst c. discriminate Hc.
  - congruence.
Qed.

(** The nine successive replacements amount to one pass of [scrub]. *)
Lemma scrub_chain c :
  fold_left (λ c char, if Ascii.eqb c char then "_"%char else c)
            invalid_chars c = scrub c.
Proof.
  unfold scrub, is_invalid, invalid_chars. simpl.
  repeat match goal with
  | |- context [Ascii.eqb c ?k] =>
      destruct (Ascii.eqb_spec c k) as [->|?]; [reflexivity |]
  end.
  reflexivity.
Qed.

Lemma replace_all_map chars s :
  fold_left (λ filename char, PyStr.replace char "_" filename) chars s
  = PyStr.map
      (λ c, fold_left (λ c char, if Ascii.eqb c char then "_"%char else c)
                      chars c) s.
Proof.
  revert s. induction chars as [|k chars IH]; intros s; simpl.
  - induction s as [|c s IHs]; simpl; [done | by rewrite <- IHs].
  - rewrite IH, replace_map, map_map. done.
Qed.

Lemma sanitize_filename_eq filename :
  sanitize_filename filename = PyStr.take 240 (PyStr.map scrub filename).
Proof.
  unfold sanitize_filename. rewrite replace_all_map.
  rewrite (map_ext _ scrub) by apply scrub_chain.
  destruct (Nat.ltb_spec 240 (String.length (PyStr.map scrub filename)));
    [done |].
  by rewrite take_all.
Qed.

Lemma scrub_idemp c : scrub (scrub c) = scrub c.
Proof.
  unfold scrub. destruct (is_invalid c) eqn:E; [done | by rewrite E].
Qed.

End Sanitize.

(** A name without invalid characters and of at most 240 characters is
    left as it is. *)
Lemma sanitize_filename_clean name :
  PyStr.map scrub name = name → String.length name ≤ 240 →
  sanitize_filename name = name.
Proof.
  intros Hs Hl. rewrite sanitize_filename_eq, Hs. by apply take_all.
Qed.

(** C5: for every name, [sanitize_filename name] contains none of the
    nine characters of [invalid_chars] (less-than, greater-than, colon,
    double quote, slash, backslash, vertical bar, question mark and
    asterisk), it is the name with each of their
    occurrences replaced by an underscore and then cut to its first 240
    characters, and its length is at most 240. *)
Theorem sanitize_filename_safe (name : string) :
  Forall (λ c, PyStr.mem c (sanitize_filename name) = false) invalid_chars
  ∧ String.length (sanitize_filename name) ≤ 240
  ∧ sanitize_filename name
    = PyStr.take 240
        (PyStr.map (λ c, if is_invalid c then "_"%char else c) name).
Proof.
  split; [|split].
  - apply Forall_forall. intros c Hc.
    rewrite sanitize_filename_eq.
    destruct (PyStr.mem c (PyStr.take 240 (PyStr.map scrub name))) eqn:E;
      [|done].
    apply mem_take in E. rewrite mem_map_scrub in E; [done |].
    unfold is_invalid. apply existsb_exists. exists c.
    split; [by apply list_elem_of_In | apply Ascii.eqb_refl].
  - rewrite sanitize_filename_eq, take_length. lia.
  - apply sanitize_filename_eq.
Qed.

(** C9: [sanitize_filename] is idempotent: its output always has at most
    240 characters, and sanitizing it again gives the same string. *)
Theorem sanitize_filename_idempotent (name : string) :
  String.length (sanitize_filename name) ≤ 240
  ∧ sanitize_filename (sanitize_filename name) = sanitize_filename name.
Proof.
  assert (String.length (sanitize_filename name) ≤ 240) as Hl
    by (rewrite sanitize_filename_eq, take_length; lia).
  split; [done |].
  apply sanitize_filename_clean; [|done].
  rewrite sanitize_filename_eq, map_take, map_map.
  f_equal. apply map_ext, scrub_idemp.
Qed.

(** ** The Extractor *)

Section Extractor.

Context (service : nat → request → outcome message)
        (json_loads : string → outcome pyobj)
        (b64encode : bytes → string).

Local Abbreviation prompt_claude := (prompt_claude service json_loads b64encode).
Local Abbreviation extraction_failure :=
  (extraction_failure service json_loads b64encode).

Ltac unfold_extractor :=
  unfold prompt_claude, messages_create, content0_text, attempt,
    try_except, except_Exception, except_JSONDecodeError, perform, emit,
    raise, mbind, mret, M_bind, M_ret;
  simpl.

(** One call of the client sends at least one request and at most one
    more than it may retry. *)
Lemma sdk_request_bound transport call req retries_left attempt :
  1 ≤ (sdk_request transport call req retries_left attempt).1
      ≤ S retries_left.
Proof.
  revert attempt. induction retries_left as [|r IH]; intros attempt; cbn;
    destruct (transport call attempt req); cbn; try lia.
  specialize (IH (S attempt)). lia.
Qed.

Ltac count_requests :=
  split;
    [unfold client_calls; simpl; lia
    |intros transport; cbn [http_requests foldr];
     try match goal with
         | |- context [sdk_request ?t ?c ?r ?k ?a] =>
             pose proof (sdk_request_bound t c r k a)
         end;
     unfold max_retries in *; lia].

(** The Extractor returns, whatever the file, the service and the parser
    do; it calls the client at most once. *)
Lemma prompt_claude_returns call pdf_file api_key :
  ∃ tr o, prompt_claude call pdf_file api_key = (tr, Return o)
          ∧ client_calls tr ≤ 1
          ∧ ∀ transport, http_requests transport tr ≤ 1 + max_retries.
Proof.
  unfold_extractor.
  destruct (read pdf_file) as [pdf_bytes|e]; simpl;
    [|eexists _, _; split; [reflexivity | count_requests]].
  destruct (seek pdf_file) as [[]|e]; simpl;
    [|eexists _, _; split; [reflexivity | count_requests]].
  destruct (service call _) as [[|[text|] msg]|e]; simpl;
    try (eexists _, _; split; [reflexivity | count_requests]).
  destruct (json_loads text) as [o|[]]; simpl;
    eexists _, _; (split; [reflexivity | count_requests]).
Qed.

(** Every failure of the extraction gives the empty dictionary, and
    what is returned otherwise is what [json.loads] made of the
    answer. *)
Lemma prompt_claude_result call pdf_file api_key tr o :
  prompt_claude call pdf_file api_key = (tr, Return o) →
  (extraction_failure call pdf_file api_key → o = ODict [])
  ∧ (¬ extraction_failure call pdf_file api_key →
     ∃ text, json_loads text = Return o).
Proof.
  intros Hrun. split.
  - revert Hrun. unfold_extractor.
    intros Hrun [e Hr|e Hs|pdf_bytes e Hr Hc|pdf_bytes msg e Hr Hc Ht
           |pdf_bytes msg text e Hr Hc Ht Hj]; revert Hrun.
    + rewrite Hr. simpl. congruence.
    + destruct (read pdf_file); simpl; [|congruence].
      rewrite Hs. simpl. congruence.
    + rewrite Hr. simpl. destruct (seek pdf_file) as [[]|]; simpl;
        [|congruence].
      unfold messages_create, perform in Hc. simpl in Hc. rewrite Hc.
      simpl. congruence.
    + rewrite Hr. simpl. destruct (seek pdf_file) as [[]|]; simpl;
        [|congruence].
      unfold messages_create, perform in Hc. simpl in Hc. rewrite Hc.
      destruct msg as [|[text|] msg]; simpl in *; congruence.
    + rewrite Hr. simpl. destruct (seek pdf_file) as [[]|]; simpl;
        [|congruence].
      unfold messages_create, perform in Hc. simpl in Hc. rewrite Hc.
      destruct msg as [|[text'|] msg]; simpl in *; try congruence.
      unfold mret, M_ret in Ht. simpl in Ht.
      injection Ht as ->. rewrite Hj.
      destruct e; simpl; congruence.
  - intros Hok. revert Hrun. unfold_extractor.
    destruct (read pdf_file) as [pdf_bytes|e] eqn:Hr;
      [|exfalso; apply Hok; by eapply read_failure].
    simpl.
    destruct (seek pdf_file) as [[]|e] eqn:Hs;
      [|exfalso; apply Hok; by eapply seek_failure].
    simpl.
    destruct (service call _) as [msg|e] eqn:Hc;
      [|exfalso; apply Hok; by eapply service_failure].
    destruct msg as [|[text|] msg]; simpl;
      [exfalso; apply Hok; by eapply answer_failure
      | |exfalso; apply Hok; by eapply answer_failure].
    destruct (json_loads text) as [o'|e] eqn:Hj;
      [|exfalso; apply Hok; by eapply parse_failure].
    simpl. intros [= _ <-]. by exists text.
Qed.

End Extractor.

(** C6, as the program has it: [prompt_claude] never raises: it
    returns an object on every path.  When the file cannot be read or
    rewound, when the call of the client raises, when the answer
    carries no text or when its text is not parsed as JSON, the object
    is the empty dictionary; otherwise it is the parsed answer.  The
    program calls the client at most once and never repeats the call
    itself; the client, built with the default settings of the SDK,
    sends up to [1 + max_retries] requests for that one call. *)
Theorem prompt_claude_never_raises
  (transport : nat → nat → request → http_reply)
  (json_loads : string → outcome pyobj) (b64encode : bytes → string)
  call pdf_file api_key :
  ∃ tr o,
    prompt_claude (sdk_client transport) json_loads b64encode
      call pdf_file api_key = (tr, Return o)
    ∧ client_calls tr ≤ 1
    ∧ http_requests transport tr ≤ 1 + max_retries
    ∧ (extraction_failure (sdk_client transport) json_loads b64encode
         call pdf_file api_key → o = ODict [])
    ∧ (¬ extraction_failure (sdk_client transport) json_loads b64encode
         call pdf_file api_key →
       ∃ text, json_loads text = Return o).
Proof.
  destruct (prompt_claude_returns (sdk_client transport) json_loads
              b64encode call pdf_file api_key)
    as (tr & o & Hrun & Hcalls & Hreq).
  exists tr, o. split; [done |]. split; [done |]. split; [done |].
  by apply (prompt_claude_result _ _ _ _ _ _ tr).
Qed.

(** C6 as the specification has it, without automatic retry, fails:
    on a transport on which every request fails in a way that can be
    retried, the one call of [prompt_claude] sends three requests
    before the empty dictionary is returned. *)
Lemma failed_request_is_sent_again :
  let run :=
    prompt_claude (sdk_client overloaded) (table_loads known_answers)
      plain_encoding 0 job1 "key" in
  run.2 = Return (ODict [])
  ∧ client_calls run.1 = 1
  ∧ http_requests overloaded run.1 = 3
  ∧ ¬ http_requests overloaded run.1 ≤ 1.
Proof. vm_compute. repeat split; lia. Qed.

(** ** The effect monad *)

Section Monad.

Lemma snd_bind {A B} (m : M A) (f : A → M B) :
  (m ≫= f).2
  = match m.2 with Return a => (f a).2 | Raise e => Raise e end.
Proof. by destruct m as [t [a|e]]. Qed.

Lemma snd_bind_emit {B} ev (m : M B) : (emit ev;; m).2 = m.2.
Proof. done. Qed.

Lemma snd_bind_return {A B} (m : M A) (f : A → M B) a :
  m.2 = Return a → (m ≫= f).2 = (f a).2.
Proof. intros H. by rewrite snd_bind, H. Qed.

Lemma snd_bind_raise {A B} (m : M A) (f : A → M B) e :
  m.2 = Raise e → (m ≫= f).2 = Raise e.
Proof. intros H. by rewrite snd_bind, H. Qed.

End Monad.

(** ** Dictionaries *)

Section Dict.

Lemma dict_get_set k k' v d :
  dict_get k (dict_set k' v d)
  = if String.eqb k' k then Some v else dict_get k d.
Proof.
  induction d as [|[k0 v0] d IH]; simpl.
  - done.
  - destruct (String.eqb_spec k0 k') as [->|Hne]; simpl.
    + by destruct (String.eqb k' k).
    + rewrite IH. destruct (String.eqb_spec k0 k) as [->|?]; [|done].
      destruct (String.eqb_spec k' k) as [->|?]; [done | done].
Qed.

Lemma dict_get_fill k fields d :
  dict_get k (fold_left (λ d field, dict_set field (VStr "Unknown") d)
                        fields d)
  = if existsb (String.eqb k) fields then Some (VStr "Unknown")
    else dict_get k d.
Proof.
  revert d. induction fields as [|f fields IH]; intros d; simpl; [done |].
  rewrite IH, dict_get_set. rewrite (String.eqb_sym k f).
  destruct (String.eqb f k); simpl; [|done].
  by destruct (existsb _ _).
Qed.

Lemma dict_get_perm k (d d' : dict) :
  NoDup (dict_keys d) → d ≡ₚ d' → dict_get k d = dict_get k d'.
Proof.
  intros Hnd Hp. induction Hp as [|[k0 v0] d d' Hp IH
                                 |[k1 v1] [k2 v2] d|d d' d'' Hp1 IH1 Hp2 IH2].
  - done.
  - simpl. inversion Hnd; subst. by rewrite IH.
  - simpl. destruct (String.eqb_spec k2 k) as [->|?]; [|done].
    destruct (String.eqb_spec k1 k) as [->|?]; [|done].
    unfold dict_keys in Hnd. simpl in Hnd. inversion Hnd as [|?? Hin _]; subst.
    exfalso. apply Hin. by left.
  - rewrite IH1 by done. apply IH2.
    unfold dict_keys in *. by rewrite <- Hp1.
Qed.

End Dict.

(** ** The batch loop *)

Section Batch.

Context (service : nat → request → outcome message)
        (json_loads : string → outcome pyobj)
        (b64encode : bytes → string)
        (os_error : nat → fs_op → option exn).

Local Abbreviation prompt_claude := (prompt_claude service json_loads b64encode).
Local Abbreviation extracted := (extracted service json_loads b64encode).
Local Abbreviation loop_body :=
  (loop_body service json_loads b64encode os_error).
Local Abbreviation loop := (loop service json_loads b64encode os_error).
Local Abbreviation process_pdfs :=
  (process_pdfs service json_loads b64encode os_error).
Local Abbreviation file_failure := (file_failure os_error).

Lemma prompt_claude_extracted call f api_key :
  ∃ tr, prompt_claude call f api_key = (tr, Return (extracted call f api_key)).
Proof.
  destruct (prompt_claude_returns service json_loads b64encode call f api_key)
    as (tr & o & Hrun & _).
  exists tr. unfold extracted. by rewrite Hrun.
Qed.

Lemma lookup_last_alloc (h : heap) (o : pyobj) :
  (h ++ [o]) !! length h = Some o.
Proof. by rewrite list_lookup_middle. Qed.

Lemma insert_last_alloc (h : heap) (o o' : pyobj) :
  <[length h := o']> (h ++ [o]) = h ++ [o'].
Proof.
  rewrite insert_app_r_alt by lia. by rewrite Nat.sub_diag.
Qed.

Lemma missing_among_dict fields (h : heap) d :
  missing_among fields (length h) (h ++ [ODict d])
  = ([], Return (List.filter (field_missing d) fields)).
Proof.
  induction fields as [|k fields IH]; simpl; [done |].
  unfold is_missing, field_missing. rewrite lookup_last_alloc, IH.
  by destruct (dict_get k d) as [v|]; simpl; [destruct (truthy v)|].
Qed.

Lemma fill_unknown_dict fields (h : heap) d :
  fill_unknown fields (length h) (h ++ [ODict d])
  = ([], Return (h ++ [ODict (fold_left
                   (λ d field, dict_set field (VStr "Unknown") d) fields d)])).
Proof.
  revert d. induction fields as [|k fields IH]; intros d; simpl; [done |].
  unfold setitem. rewrite lookup_last_alloc, insert_last_alloc.
  unfold mbind, M_bind, mret, M_ret. simpl. by rewrite IH.
Qed.

Lemma getitem_filled k (h : heap) d :
  k ∈ required_fields →
  ∃ v, getitem (length h) k (h ++ [ODict (filled d)]) = ([], Return v)
       ∧ format v = field_text d k.
Proof.
  intros Hk. unfold getitem. rewrite lookup_last_alloc.
  unfold filled. rewrite dict_get_fill.
  assert (existsb (String.eqb k) (missing_fields_of d) = field_missing d k)
    as ->.
  { unfold missing_fields_of, required_fields in *.
    apply list_elem_of_In in Hk. simpl in Hk.
    destruct Hk as [<-|[<-|[<-|[]]]]; simpl;
      destruct (field_missing d "Customer"),
               (field_missing d "Part Number"),
               (field_missing d "Description"); reflexivity. }
  unfold field_missing, field_text.
  destruct (dict_get k d) as [v|]; simpl; [|by eexists].
  destruct (truthy v); simpl; by eexists.
Qed.

Lemma missing_among_seq (h : heap) b c :
  (missing_among required_fields (length h) (h ++ [OSeq b c])).2
  = Raise TypeError
  ∨ (missing_among required_fields (length h) (h ++ [OSeq b c])).2
    = Return required_fields.
Proof.
  unfold required_fields. cbn [missing_among]. unfold is_missing.
  rewrite lookup_last_alloc.
  destruct (c "Customer"); [by left |].
  destruct (c "Part Number"); [by left |].
  destruct (c "Description"); [by left |].
  by right.
Qed.

Lemma fill_unknown_not_dict field fields l (h : heap) :
  (∃ o, h !! l = Some o ∧ ∀ d, o ≠ ODict d) →
  (fill_unknown (field :: fields) l h).2 = Raise TypeError.
Proof.
  intros (o & Ho & Hd). cbn [fill_unknown]. rewrite snd_bind.
  unfold setitem. rewrite Ho.
  destruct o as [d| |]; [by destruct (Hd d) | done | done].
Qed.

(** One iteration, as a function of the extracted object and of what
    the operating system refuses. *)
Lemma loop_body_outcome api_key total i f st :
  (loop_body api_key total i f st).2
  = let o := extracted i f api_key in
    match file_failure i f o with
    | Some e => Raise e
    | None =>
        Return {| temp_dir := file_directory f o (temp_dir st);
                  zip_file := zip_file st ++ file_entries f o;
                  results := results st
                    ++ [file_result (length (objects st)) f o];
                  objects := objects st ++ [file_object o] |}
    end.
Proof.
  unfold loop_body, file_failure.
  rewrite !snd_bind_emit, snd_bind. unfold write_file.
  destruct (os_error i (OpenWrite (name f))) as [e|]; [done |].
  cbn [snd mret M_ret].
  destruct (prompt_claude_extracted i f api_key) as [tr ->].
  generalize (extracted i f api_key). intros o.
  rewrite snd_bind. cbn [snd]. rewrite snd_bind_emit.
  unfold alloc, is_falsy. rewrite lookup_last_alloc.
  destruct o as [[|p d]|[] c|[]]; cbn [obj_truthy negb unprocessable];
    try (unfold file_directory, file_entries, file_result, file_object;
         cbn [snd mret M_ret]; by rewrite app_nil_r).
  - (* a non-empty dictionary *)
    rewrite snd_bind, missing_among_dict. cbn [snd].
    fold (missing_fields_of (p :: d)).
    assert ((match missing_fields_of (p :: d) with
             | [] => mret (objects st ++ [ODict (p :: d)])
             | _ :: _ =>
                 emit LogWarning;;
                 fill_unknown (missing_fields_of (p :: d))
                   (length (objects st)) (objects st ++ [ODict (p :: d)])
             end : M heap).2
            = Return (objects st ++ [ODict (filled (p :: d))])) as Hfill.
    { unfold filled.
      destruct (missing_fields_of (p :: d)) as [|m ms] eqn:Hm; [done |].
      by rewrite snd_bind_emit, fill_unknown_dict. }
    erewrite snd_bind_return by exact Hfill.
    destruct (getitem_filled "Part Number" (objects st) (p :: d))
      as (pn & Hpn & Fpn); [by repeat constructor |].
    destruct (getitem_filled "Customer" (objects st) (p :: d))
      as (cu & Hcu & Fcu); [by repeat constructor |].
    destruct (getitem_filled "Description" (objects st) (p :: d))
      as (de & Hde & Fde); [by repeat constructor |].
    rewrite snd_bind, Hpn. cbn [snd]. rewrite snd_bind, Hcu. cbn [snd].
    rewrite snd_bind, Hde. cbn [snd].
    rewrite Fpn, Fcu, Fde. fold (new_filename_of (p :: d)).
    unfold rename. rewrite lookup_insert_eq. rewrite snd_bind.
    destruct (os_error i (RenameTo _ _)) as [e|]; [done |].
    cbn [snd mret M_ret]. rewrite snd_bind_emit.
    unfold zip_write. rewrite lookup_insert_eq. rewrite snd_bind.
    destruct (os_error i (ZipWrite _ _)) as [e|]; [done |].
    cbn [snd mret M_ret]. reflexivity.
  - (* a truthy string or array *)
    rewrite snd_bind.
    destruct (missing_among_seq (objects st) true c) as [->| ->]; [done |].
    unfold required_fields. cbn iota beta.
    erewrite snd_bind_raise; [done |].
    rewrite snd_bind_emit. apply fill_unknown_not_dict.
    eexists. by rewrite lookup_last_alloc.
  - (* a truthy scalar *)
    rewrite snd_bind. cbn [missing_among required_fields].
    rewrite snd_bind. unfold is_missing.
    by rewrite lookup_last_alloc.
Qed.

(** The loop, as a function of the objects extracted for its files: it
    returns when no iteration fails. *)
Lemma loop_outcome api_key total (files : list uploaded_file) i st :
  match (loop api_key total i files st).2 with
  | Return st' =>
      results st'
      = results st
        ++ imap (λ k f, file_result (length (objects st) + k) f
                          (extracted (i + k) f api_key)) files
      ∧ objects st'
        = objects st
          ++ imap (λ k f, file_object (extracted (i + k) f api_key)) files
      ∧ zip_file st'
        = zip_file st
          ++ concat (imap (λ k f, file_entries f
                                    (extracted (i + k) f api_key)) files)
      ∧ ∀ k f, files !! k = Some f →
               file_failure (i + k) f (extracted (i + k) f api_key) = None
  | Raise e =>
      ∃ k f, files !! k = Some f
             ∧ file_failure (i + k) f (extracted (i + k) f api_key) = Some e
  end.
Proof.
  revert i st. induction files as [|f files IH]; intros i st.
  - cbn. rewrite !app_nil_r. by repeat split.
  - cbn [loop]. rewrite snd_bind, loop_body_outcome. cbn zeta.
    destruct (file_failure i f (extracted i f api_key)) as [e|] eqn:Hf.
    + exists 0, f. by rewrite Nat.add_0_r.
    + specialize (IH (S i)
        {| temp_dir := file_directory f (extracted i f api_key) (temp_dir st);
           zip_file := zip_file st ++ file_entries f (extracted i f api_key);
           results := results st
             ++ [file_result (length (objects st)) f
                   (extracted i f api_key)];
           objects := objects st ++ [file_object (extracted i f api_key)] |}).
      destruct (loop api_key total (S i) files _).2 as [st'|e].
      * destruct IH as (Hr & Ho & Hz & Hu). cbn [results objects zip_file] in *.
        rewrite Hr, Ho, Hz. rewrite !imap_cons, length_app. cbn [length concat].
        rewrite !Nat.add_0_r, <- !app_assoc. cbn [app].
        repeat split.
        -- do 2 f_equal. apply imap_ext. intros k x _. unfold compose.
           replace (S i + k) with (i + S k) by lia.
           by replace (length (objects st) + 1 + k)
             with (length (objects st) + S k) by lia.
        -- do 2 f_equal. apply imap_ext. intros k x _. unfold compose.
           by replace (S i + k) with (i + S k) by lia.
        -- do 3 f_equal. apply imap_ext. intros k x _. unfold compose.
           by replace (S i + k) with (i + S k) by lia.
        -- intros [|k] x Hx; cbn in Hx.
           ++ injection Hx as <-. by rewrite Nat.add_0_r.
           ++ replace (i + S k) with (S i + k) by lia. by apply Hu.
      * destruct IH as (k & x & Hx & Hk).
        exists (S k), x. split; [done |].
        by replace (i + S k) with (S i + k) by lia.
Qed.

(** A file whose iteration does not fail has a processable object. *)
Lemma file_failure_none i f o :
  file_failure i f o = None → unprocessable o = false.
Proof.
  unfold file_failure.
  destruct (os_error i (OpenWrite (name f))); [done |].
  by destruct (unprocessable o).
Qed.

(** The block around the loop: what it gives is what its body gives,
    when it gives a value at all. *)
Lemma with_temp_dir_returns {A} refused_make refused_cleanup (body : M A) a :
  (with_temp_dir refused_make refused_cleanup body).2 = Return a →
  body.2 = Return a.
Proof.
  unfold with_temp_dir.
  destruct refused_make; [done |]. by destruct refused_cleanup.
Qed.

(** The batch, as a function of the objects extracted for its files. *)
Lemma process_pdfs_outcome (files : list uploaded_file) api_key :
  match (process_pdfs files api_key).2 with
  | Return None => files = []
  | Return (Some (zip, rs, h)) =>
      files ≠ []
      ∧ rs = imap (λ k f, file_result k f (extracted k f api_key)) files
      ∧ h = imap (λ k f, file_object (extracted k f api_key)) files
      ∧ zip = concat (imap (λ k f, file_entries f (extracted k f api_key))
                           files)
      ∧ ∀ k f, files !! k = Some f →
               file_failure k f (extracted k f api_key) = None
  | Raise e => files ≠ []
  end.
Proof.
  unfold process_pdfs. destruct files as [|f0 files0] eqn:Hfiles; [done |].
  rewrite <- Hfiles.
  destruct (with_temp_dir _ _ _).2 as [[[[zip rs] h]|]|e] eqn:Hrun;
    [| |by rewrite Hfiles].
  - apply with_temp_dir_returns in Hrun. revert Hrun. rewrite snd_bind.
    pose proof (loop_outcome api_key (length files) files 0 empty_batch) as H.
    destruct (loop api_key (length files) 0 files empty_batch).2 as [st|e];
      [|done].
    rewrite !snd_bind_emit. cbn [snd mret M_ret]. intros [= <- <- <-].
    destruct H as (Hr & Ho & Hz & Hu). cbn in Hr, Ho, Hz.
    split; [by rewrite Hfiles |]. done.
  - apply with_temp_dir_returns in Hrun. revert Hrun. rewrite snd_bind.
    destruct (loop api_key (length files) 0 files empty_batch).2 as [st|e];
      [|done].
    by rewrite !snd_bind_emit.
Qed.

(** The object the Extractor returned is the one [extracted] names. *)
Lemma extracted_eq call f api_key o :
  (prompt_claude call f api_key).2 = Return o →
  extracted call f api_key = o.
Proof. unfold extracted. by intros ->. Qed.

Lemma extracted_returned call f api_key :
  (prompt_claude call f api_key).2 = Return (extracted call f api_key).
Proof. by destruct (prompt_claude_extracted call f api_key) as [tr ->]. Qed.


(** What a returned batch holds for the file at position [i]. *)
Lemma process_pdfs_lookup (files : list uploaded_file) api_key zip rs h i f :
  (process_pdfs files api_key).2 = Return (Some (zip, rs, h)) →
  files !! i = Some f →
  rs !! i = Some (file_result i f (extracted i f api_key))
  ∧ h !! i = Some (file_object (extracted i f api_key))
  ∧ (∀ e, e ∈ file_entries f (extracted i f api_key) → e ∈ zip)
  ∧ unprocessable (extracted i f api_key) = false.
Proof.
  intros Hrun Hf. pose proof (process_pdfs_outcome files api_key) as H.
  rewrite Hrun in H. destruct H as (_ & -> & -> & -> & Hu).
  rewrite !list_lookup_imap, Hf.
  repeat split; [|by eapply file_failure_none, Hu].
  intros e He. apply list_elem_of_In, in_concat.
  exists (file_entries f (extracted i f api_key)).
  split; [|by apply list_elem_of_In].
  apply list_elem_of_In, list_elem_of_lookup. exists i.
  by rewrite list_lookup_imap, Hf.
Qed.

Lemma status_of_not_error m : status_of m ≠ "Error: No data extracted".
Proof. by destruct m. Qed.

Lemma archived_file_result l f o :
  archived (file_result l f o) f = file_entries f o.
Proof.
  unfold archived, file_result, file_entries. cbn [status new_name].
  destruct o as [[|p d]| |]; try done.
  destruct (decide _) as [E|_]; [by apply status_of_not_error in E | done].
Qed.

Lemma zip_with_imap_archived (a : nat → loc)
  (g : nat → uploaded_file → pyobj) files :
  zip_with archived (imap (λ k f, file_result (a k) f (g k f)) files) files
  = imap (λ k f, file_entries f (g k f)) files.
Proof.
  revert a g. induction files as [|f files IH]; intros a g; [done |].
  rewrite !imap_cons. cbn [zip_with]. rewrite archived_file_result.
  f_equal. apply (IH (a ∘ S) (g ∘ S)).
Qed.

(** C2: the archive a batch returns holds exactly the entries of the
    files whose status is not the error status, in order.  A file for
    which the Extractor returned the empty record has the status
    "Error: No data extracted", an empty new name and no entry; a file
    with status "Success" or "Partial success (...)" has its entry, made
    of its new name and its bytes. *)
Theorem error_files_not_archived
  (files : list uploaded_file) api_key zip rs h :
  (process_pdfs files api_key).2 = Return (Some (zip, rs, h)) →
  zip = concat (zip_with archived rs files)
  ∧ (∀ i f, files !! i = Some f →
       (prompt_claude i f api_key).2 = Return (ODict []) →
       ∃ r, rs !! i = Some r
            ∧ status r = "Error: No data extracted"
            ∧ new_name r = EmptyString
            ∧ archived r f = [])
  ∧ (∀ i f r, files !! i = Some f → rs !! i = Some r →
       status r = "Success"
       ∨ (∃ m, status r = "Partial success (missing: " +:+ m +:+ ")") →
       archived r f = [(new_name r, getbuffer f)]
       ∧ (new_name r, getbuffer f) ∈ zip).
Proof.
  intros Hrun. split; [|split].
  - pose proof (process_pdfs_outcome files api_key) as H.
    rewrite Hrun in H. destruct H as (_ & -> & _ & -> & _).
    by rewrite (zip_with_imap_archived id).
  - intros i f Hf Ho.
    destruct (process_pdfs_lookup _ _ _ _ _ _ _ Hrun Hf) as (Hr & _).
    rewrite (extracted_eq _ _ _ _ Ho) in Hr.
    eexists. split; [exact Hr |]. by repeat split.
  - intros i f r Hf Hr Hs.
    destruct (process_pdfs_lookup _ _ _ _ _ _ _ Hrun Hf) as (Hr' & _ & Hz & _).
    rewrite Hr in Hr'. injection Hr' as ->.
    rewrite archived_file_result.
    revert Hs Hz. destruct (extracted i f api_key) as [[|p d]| |]; cbn;
      try (by intros [Hs|[m Hs]]).
    intros _ Hz. split; [done |]. apply Hz. constructor.
Qed.

(** What a returned batch holds for a file with a non-empty record. *)
Lemma process_pdfs_record (files : list uploaded_file) api_key zip rs h i f d :
  (process_pdfs files api_key).2 = Return (Some (zip, rs, h)) →
  files !! i = Some f →
  (prompt_claude i f api_key).2 = Return (ODict d) →
  d ≠ [] →
  rs !! i = Some {| original_name := name f;
                    extracted_data := i;
                    new_name := new_filename_of d;
                    status := status_of (missing_fields_of d) |}
  ∧ h !! i = Some (ODict (filled d))
  ∧ (new_filename_of d, getbuffer f) ∈ zip.
Proof.
  intros Hrun Hf Ho Hd.
  destruct (process_pdfs_lookup _ _ _ _ _ _ _ Hrun Hf) as (Hr & Hh & Hz & _).
  rewrite (extracted_eq _ _ _ _ Ho) in Hr, Hh, Hz.
  destruct d as [|p d]; [done |]. cbn in Hz.
  repeat split; [done | done |]. apply Hz. constructor.
Qed.

Lemma field_text_present d field s :
  dict_get field d = Some (VStr s) → s ≠ EmptyString →
  field_text d field = s ∧ field_missing d field = false.
Proof.
  unfold field_text, field_missing. intros -> Hs. by destruct s.
Qed.

Lemma field_text_missing d field :
  field_text d field
  = if field_missing d field then "Unknown"
    else default EmptyString (format <$> dict_get field d).
Proof.
  unfold field_text, field_missing.
  destruct (dict_get field d) as [v|]; [|done]. by destruct (truthy v).
Qed.

Lemma missing_fields_canonical d :
  missing_fields_of d
  = canonical_missing (field_missing d "Customer")
      (field_missing d "Part Number") (field_missing d "Description").
Proof.
  unfold missing_fields_of, required_fields, canonical_missing.
  cbn [List.filter].
  by destruct (field_missing d "Customer"), (field_missing d "Part Number"),
       (field_missing d "Description").
Qed.

Lemma field_missing_perm d d' field :
  NoDup (dict_keys d) → d ≡ₚ d' →
  field_missing d' field = field_missing d field.
Proof.
  intros Hn Hp. unfold field_missing. by rewrite (dict_get_perm _ d d').
Qed.

(** The record a result refers to is the returned record with the
    placeholder written into it: the two share one object. *)
Lemma stored_record_filled
  (files : list uploaded_file) api_key zip rs h i f d :
  (process_pdfs files api_key).2 = Return (Some (zip, rs, h)) →
  files !! i = Some f →
  (prompt_claude i f api_key).2 = Return (ODict d) →
  d ≠ [] →
  ∃ r, rs !! i = Some r
       ∧ h !! extracted_data r = Some (ODict (filled d))
       ∧ ∀ field, field ∈ required_fields →
           dict_get field (filled d)
           = if field_missing d field then Some (VStr "Unknown")
             else dict_get field d.
Proof.
  intros Hrun Hf Ho Hne.
  destruct (process_pdfs_record _ _ _ _ _ _ _ _ Hrun Hf Ho Hne)
    as (Hr & Hh & _).
  eexists. split; [exact Hr |]. split; [exact Hh |].
  intros field Hfield. unfold filled. rewrite dict_get_fill.
  rewrite missing_fields_canonical. unfold required_fields in Hfield.
  apply list_elem_of_In in Hfield. cbn in Hfield.
  destruct Hfield as [<-|[<-|[<-|[]]]];
    by destruct (field_missing d "Customer"),
                (field_missing d "Part Number"),
                (field_missing d "Description").
Qed.

(** C3: in a batch that returns, a file whose record has the three
    fields present and non-empty is renamed to the sanitized
    "{Part Number} {Customer} {Description}.pdf", has status "Success"
    and is archived under that name with its bytes; for the record
    Acme / PN-100 / Bracket the name is "PN-100 Acme Bracket.pdf". *)
Theorem complete_record_renamed
  (files : list uploaded_file) api_key zip rs h i f d c p ds :
  (process_pdfs files api_key).2 = Return (Some (zip, rs, h)) →
  files !! i = Some f →
  (prompt_claude i f api_key).2 = Return (ODict d) →
  dict_get "Customer" d = Some (VStr c) → c ≠ EmptyString →
  dict_get "Part Number" d = Some (VStr p) → p ≠ EmptyString →
  dict_get "Description" d = Some (VStr ds) → ds ≠ EmptyString →
  ∃ r, rs !! i = Some r
       ∧ new_name r
         = sanitize_filename (p +:+ " " +:+ c +:+ " " +:+ ds +:+ ".pdf")
       ∧ status r = "Success"
       ∧ (new_name r, getbuffer f) ∈ zip
       ∧ (d = acme_record → new_name r = "PN-100 Acme Bracket.pdf").
Proof.
  intros Hrun Hf Ho Hc Hc' Hp Hp' Hd Hd'.
  assert (d ≠ []) as Hne by (by intros ->).
  destruct (process_pdfs_record _ _ _ _ _ _ _ _ Hrun Hf Ho Hne)
    as (Hr & _ & Hz).
  destruct (field_text_present _ _ _ Hc Hc') as [Tc Mc].
  destruct (field_text_present _ _ _ Hp Hp') as [Tp Mp].
  destruct (field_text_present _ _ _ Hd Hd') as [Td Md].
  eexists. split; [exact Hr |]. cbn [new_name status].
  assert (new_filename_of d
          = sanitize_filename (p +:+ " " +:+ c +:+ " " +:+ ds +:+ ".pdf"))
    as Hn by (unfold new_filename_of; by rewrite Tc, Tp, Td).
  repeat split.
  - done.
  - by rewrite missing_fields_canonical, Mc, Mp, Md.
  - done.
  - intros ->. reflexivity.
Qed.

(** C4: in a batch that returns, a file whose record is non-empty but
    lacks some required field, or has it empty, is renamed with
    "Unknown" in the place of each such field, has the status
    "Partial success (missing: ...)" listing these fields joined by
    ", ", and is archived; when only the Description is missing the
    status is "Partial success (missing: Description)". *)
Theorem partial_record_renamed
  (files : list uploaded_file) api_key zip rs h i f d :
  (process_pdfs files api_key).2 = Return (Some (zip, rs, h)) →
  files !! i = Some f →
  (prompt_claude i f api_key).2 = Return (ODict d) →
  d ≠ [] →
  List.filter (field_missing d) required_fields ≠ [] →
  let text field :=
    if field_missing d field then "Unknown"
    else default EmptyString (format <$> dict_get field d) in
  ∃ r, rs !! i = Some r
       ∧ new_name r
         = sanitize_filename
             (text "Part Number" +:+ " " +:+ text "Customer" +:+ " "
                +:+ text "Description" +:+ ".pdf")
       ∧ status r
         = "Partial success (missing: "
             +:+ PyStr.join ", " (List.filter (field_missing d) required_fields)
             +:+ ")"
       ∧ (List.filter (field_missing d) required_fields = ["Description"] →
          status r = "Partial success (missing: Description)")
       ∧ (new_name r, getbuffer f) ∈ zip.
Proof.
  intros Hrun Hf Ho Hne Hm text.
  destruct (process_pdfs_record _ _ _ _ _ _ _ _ Hrun Hf Ho Hne)
    as (Hr & _ & Hz).
  eexists. split; [exact Hr |]. cbn [new_name status].
  fold (missing_fields_of d) in *.
  repeat split.
  - unfold new_filename_of, text. by rewrite !field_text_missing.
  - unfold status_of. by destruct (missing_fields_of d).
  - intros E. by rewrite E.
  - done.
Qed.

(** C10: in a "Partial success" status of a batch that returns, the
    missing fields are listed in the order Customer, Part Number,
    Description, whatever the order of the keys in the record the
    Extractor returned. *)
Theorem missing_fields_in_canonical_order
  (files : list uploaded_file) api_key zip rs h i f d r :
  (process_pdfs files api_key).2 = Return (Some (zip, rs, h)) →
  files !! i = Some f →
  (prompt_claude i f api_key).2 = Return (ODict d) →
  rs !! i = Some r →
  (∃ m, status r = "Partial success (missing: " +:+ m +:+ ")") →
  NoDup (dict_keys d) →
  ∀ d', d ≡ₚ d' →
    status r
    = "Partial success (missing: "
        +:+ PyStr.join ", "
              (canonical_missing (field_missing d' "Customer")
                 (field_missing d' "Part Number")
                 (field_missing d' "Description"))
        +:+ ")".
Proof.
  intros Hrun Hf Ho Hr [m Hs] Hn d' Hp.
  rewrite !(field_missing_perm d d') by done.
  rewrite <- missing_fields_canonical.
  destruct (process_pdfs_lookup _ _ _ _ _ _ _ Hrun Hf) as (Hr' & _).
  rewrite (extracted_eq _ _ _ _ Ho), Hr in Hr'. injection Hr' as ->.
  revert Hs. cbn [status file_result].
  destruct d as [|p d]; [done |].
  unfold status_of. by destruct (missing_fields_of (p :: d)).
Qed.

(** *** Colliding names *)

Lemma loop_app api_key total (l1 l2 : list uploaded_file) i st :
  (loop api_key total i (l1 ++ l2) st).2
  = match (loop api_key total i l1 st).2 with
    | Return st' => (loop api_key total (i + length l1) l2 st').2
    | Raise e => Raise e
    end.
Proof.
  revert i st. induction l1 as [|f l1 IH]; intros i st.
  - cbn. by rewrite Nat.add_0_r.
  - cbn [app loop length]. rewrite !snd_bind.
    destruct (loop_body api_key total i f st).2 as [st'|e]; [|done].
    rewrite IH. by replace (S i + length l1) with (i + S (length l1)) by lia.
Qed.

Lemma entries_split (g : nat → uploaded_file → archive)
  (l : list uploaded_file) j x :
  l !! j = Some x →
  concat (imap g l)
  = concat (imap g (take j l)) ++ g j x
      ++ concat (imap (λ k, g (S j + k)) (drop (S j) l)).
Proof.
  intros Hx. rewrite <- (take_drop_middle l j x Hx) at 1.
  rewrite imap_app, concat_app, imap_cons. cbn [concat].
  assert (length (take j l) = j) as ->.
  { rewrite length_take. apply lookup_lt_Some in Hx. lia. }
  rewrite Nat.add_0_r. do 3 f_equal.
  apply imap_ext. intros k y _. unfold compose.
  by replace (j + S k) with (S j + k) by lia.
Qed.

Lemma zip_read_app n (z1 z2 : archive) :
  zip_read n (z1 ++ z2)
  = match zip_read n z2 with
    | Some data => Some data
    | None => zip_read n z1
    end.
Proof.
  induction z1 as [|[m data] z1 IH]; cbn.
  - by destruct (zip_read n z2).
  - rewrite IH. by destruct (zip_read n z2).
Qed.

Lemma zip_read_absent n (z : archive) :
  (∀ e, e ∈ z → e.1 ≠ n) → zip_read n z = None.
Proof.
  induction z as [|[m data] z IH]; intros H; cbn; [done |].
  rewrite IH by (intros e He; apply H; by constructor).
  destruct (String.eqb_spec m n) as [->|]; [|done].
  by destruct (H (n, data)); [constructor |].
Qed.

(** A file with a status other than the error status has a non-empty
    record, and its result and entry are those of that record. *)
Lemma file_result_not_error l f o r :
  r = file_result l f o →
  status r ≠ "Error: No data extracted" →
  file_entries f o = [(new_name r, getbuffer f)]
  ∧ file_directory f o = λ fs,
      <[new_name r := getbuffer f]>
        (delete (name f) (<[name f := getbuffer f]> fs)).
Proof. intros -> Hs. by destruct o as [[|p d]| |]. Qed.

Lemma file_entries_elem l f o e :
  e ∈ file_entries f o →
  e.1 = new_name (file_result l f o)
  ∧ status (file_result l f o) ≠ "Error: No data extracted".
Proof.
  destruct o as [[|p d]| |]; cbn; try (by intros ?%elem_of_nil).
  intros ->%list_elem_of_singleton. split; [done |].
  apply status_of_not_error.
Qed.

(** The loop of a batch that returned has run to its end. *)
Lemma process_pdfs_loop (files : list uploaded_file) api_key zip rs h :
  (process_pdfs files api_key).2 = Return (Some (zip, rs, h)) →
  ∃ st, (loop api_key (length files) 0 files empty_batch).2 = Return st.
Proof.
  unfold process_pdfs. destruct files as [|f0 files0] eqn:Hfiles; [done |].
  rewrite <- Hfiles. intros Hrun%with_temp_dir_returns. revert Hrun.
  rewrite snd_bind.
  destruct (loop api_key (length files) 0 files empty_batch).2 as [st|e];
    [by eexists | done].
Qed.

(** C8, as the code has it: when two files of a batch that returns get
    the same new name, nothing is deduplicated.  The archive holds an
    entry under that name for each of the two files, each with the
    bytes of its own file and the earlier before the later, so the
    earlier file's bytes stay in the archive.  Reading the name from
    the archive yields the later file's bytes when no file after it
    uses the name.  In the temporary directory the name holds the
    later file's bytes once the later file has been processed. *)
Theorem colliding_names_both_archived
  (files : list uploaded_file) api_key zip rs h i j fi fj ri rj :
  (process_pdfs files api_key).2 = Return (Some (zip, rs, h)) →
  i < j →
  files !! i = Some fi → files !! j = Some fj →
  rs !! i = Some ri → rs !! j = Some rj →
  status ri ≠ "Error: No data extracted" →
  status rj ≠ "Error: No data extracted" →
  new_name ri = new_name rj →
  (∃ z1 z2 z3,
     zip = z1 ++ (new_name rj, getbuffer fi) :: z2
              ++ (new_name rj, getbuffer fj) :: z3
     ∧ ((∀ k rk, j < k → rs !! k = Some rk →
           status rk = "Error: No data extracted"
           ∨ new_name rk ≠ new_name rj) →
        zip_read (new_name rj) zip = Some (getbuffer fj)))
  ∧ ∃ st,
      (loop api_key (length files) 0 (take (S j) files) empty_batch).2
      = Return st
      ∧ temp_dir st !! new_name rj = Some (getbuffer fj).
Proof.
  intros Hrun Hij Hfi Hfj Hri Hrj Hsi Hsj Hn.
  destruct (process_pdfs_lookup _ _ _ _ _ _ _ Hrun Hfi) as (Hri' & _).
  destruct (process_pdfs_lookup _ _ _ _ _ _ _ Hrun Hfj) as (Hrj' & _ & _ & Huj).
  rewrite Hri in Hri'. injection Hri' as Eri.
  rewrite Hrj in Hrj'. injection Hrj' as Erj.
  destruct (file_result_not_error _ _ _ _ Eri Hsi) as [Hei _].
  destruct (file_result_not_error _ _ _ _ Erj Hsj) as [Hej Hdj].
  pose proof (process_pdfs_outcome files api_key) as H.
  rewrite Hrun in H. destruct H as (_ & Hrs & _ & Hzip & Hu).
  split.
  - rewrite (entries_split _ files j fj Hfj), Hej in Hzip.
    assert (take j files !! i = Some fi) as Hfi'
      by (by rewrite lookup_take_lt).
    rewrite (entries_split _ (take j files) i fi Hfi'), Hei, Hn in Hzip.
    rewrite <- !app_assoc in Hzip. cbn [app] in Hzip.
    eexists _, _, _. split; [exact Hzip |].
    intros Hlater. rewrite Hzip.
    rewrite zip_read_app. cbn [zip_read].
    rewrite zip_read_app. cbn [zip_read].
    rewrite zip_read_absent; [by rewrite String.eqb_refl |].
    intros e (l & Hl & He)%list_elem_of_In%in_concat.
    apply list_elem_of_In in He.
    apply list_elem_of_In, list_elem_of_lookup in Hl as [k Hk].
    rewrite list_lookup_imap, lookup_drop in Hk.
    destruct (files !! (S j + k)) as [fk|] eqn:Hfk; [|done].
    injection Hk as <-.
    destruct (file_entries_elem (S j + k) _ _ _ He) as [-> Hse].
    destruct (Hlater (S j + k)
                (file_result (S j + k) fk (extracted (S j + k) fk api_key)))
      as [?|?]; [lia | | done | done].
    by rewrite Hrs, list_lookup_imap, Hfk.
  - destruct (process_pdfs_loop _ _ _ _ _ Hrun) as [st Hloop].
    pose proof (loop_app api_key (length files) (take (S j) files)
                  (drop (S j) files) 0 empty_batch) as Happ.
    rewrite take_drop, Hloop in Happ.
    destruct (loop api_key (length files) 0 (take (S j) files) empty_batch).2
      as [st1|e] eqn:H1; [|done].
    exists st1. split; [done |].
    rewrite (take_S_r _ _ _ Hfj), loop_app in H1.
    destruct (loop api_key (length files) 0 (take j files) empty_batch).2
      as [st'|e]; [|done].
    assert (length (take j files) = j) as Hlen.
    { rewrite length_take. apply lookup_lt_Some in Hfj. lia. }
    rewrite Hlen in H1. cbn [loop Nat.add] in H1.
    rewrite snd_bind, loop_body_outcome in H1. cbn zeta in H1.
    destruct (file_failure j fj (extracted j fj api_key)); [done |].
    cbn [snd mret M_ret] in H1. injection H1 as <-.
    cbn [temp_dir]. rewrite Hdj. apply lookup_insert_eq.
Qed.

End Batch.

(** ** Scenario runs *)

Lemma error_files_not_archived_witness :
  ∃ zip rs h,
    run_batch [says "acme"; says "nothing"] [job1; job2]
    = Return (Some (zip, rs, h))
    ∧ zip = concat (zip_with archived rs [job1; job2])
    ∧ (∃ r, rs !! 1 = Some r
            ∧ status r = "Error: No data extracted"
            ∧ new_name r = EmptyString
            ∧ archived r job2 = []).
Proof.
  assert (∃ x, run_batch [says "acme"; says "nothing"] [job1; job2]
               = Return (Some x)) as [[[zip rs] h] Hrun]
    by (eexists; vm_compute; reflexivity).
  destruct (error_files_not_archived
              (scripted_service [says "acme"; says "nothing"])
              (table_loads known_answers) plain_encoding accepting
              [job1; job2] "key" zip rs h Hrun)
    as (Hzip & Herr & _).
  exists zip, rs, h. split; [exact Hrun |]. split; [exact Hzip |].
  apply (Herr 1 job2); [reflexivity | vm_compute; reflexivity].
Defined.

Lemma complete_record_renamed_witness :
  ∃ zip rs h r,
    run_batch [says "acme"] [job1] = Return (Some (zip, rs, h))
    ∧ rs !! 0 = Some r
    ∧ new_name r = "PN-100 Acme Bracket.pdf"
    ∧ status r = "Success"
    ∧ (new_name r, getbuffer job1) ∈ zip.
Proof.
  assert (∃ x, run_batch [says "acme"] [job1] = Return (Some x))
    as [[[zip rs] h] Hrun] by (eexists; vm_compute; reflexivity).
  destruct (complete_record_renamed
              (scripted_service [says "acme"])
              (table_loads known_answers) plain_encoding accepting
              [job1] "key" zip rs h 0 job1 acme_record
              "Acme" "PN-100" "Bracket" Hrun)
    as (r & Hr & _ & Hs & Hz & Hn).
  - reflexivity.
  - vm_compute; reflexivity.
  - reflexivity.
  - discriminate.
  - reflexivity.
  - discriminate.
  - reflexivity.
  - discriminate.
  - exists zip, rs, h, r.
    split; [exact Hrun |]. split; [exact Hr |].
    split; [exact (Hn eq_refl) |]. split; [exact Hs | exact Hz].
Defined.

Lemma partial_record_renamed_witness :
  ∃ zip rs h r,
    run_batch [says "no description"] [job1] = Return (Some (zip, rs, h))
    ∧ rs !! 0 = Some r
    ∧ new_name r = "PN-100 Acme Unknown.pdf"
    ∧ status r = "Partial success (missing: Description)".
Proof.
  assert (∃ x, run_batch [says "no description"] [job1] = Return (Some x))
    as [[[zip rs] h] Hrun] by (eexists; vm_compute; reflexivity).
  pose proof (partial_record_renamed
                (scripted_service [says "no description"])
                (table_loads known_answers) plain_encoding accepting
                [job1] "key" zip rs h 0 job1 no_description_record Hrun) as H.
  destruct H as (r & Hr & Hn & _ & Hs & _).
  - reflexivity.
  - vm_compute; reflexivity.
  - discriminate.
  - vm_compute; discriminate.
  - exists zip, rs, h, r.
    split; [exact Hrun |]. split; [exact Hr |].
    split; [rewrite Hn; vm_compute; reflexivity | apply Hs; reflexivity].
Defined.

Lemma missing_fields_in_canonical_order_witness :
  ∃ zip rs h r,
    run_batch [says "only part number"] [job1] = Return (Some (zip, rs, h))
    ∧ rs !! 0 = Some r
    ∧ status r = "Partial success (missing: Customer, Description)"
    ∧ status r
      = "Partial success (missing: "
          +:+ PyStr.join ", "
                (canonical_missing
                   (field_missing (rev only_part_number_record) "Customer")
                   (field_missing (rev only_part_number_record)
                      "Part Number")
                   (field_missing (rev only_part_number_record)
                      "Description"))
          +:+ ")".
Proof.
  assert (run_batch [says "only part number"] [job1]
          = Return (Some
              ([("PN-100 Unknown Unknown.pdf", getbuffer job1)],
               [result "job1.pdf" 0 "PN-100 Unknown Unknown.pdf"
                  "Partial success (missing: Customer, Description)"],
               [ODict [("Customer", VStr "Unknown");
                       ("Part Number", VStr "PN-100");
                       ("Description", VStr "Unknown")]]))) as Hrun
    by (vm_compute; reflexivity).
  eexists _, _, _, _. split; [exact Hrun |]. split; [reflexivity |].
  split; [reflexivity |].
  apply (missing_fields_in_canonical_order
           (scripted_service [says "only part number"])
           (table_loads known_answers) plain_encoding accepting
           [job1] "key" _ _ _ 0 job1 only_part_number_record _ Hrun).
  - reflexivity.
  - vm_compute; reflexivity.
  - reflexivity.
  - by exists "Customer, Description".
  - compute_done.
  - apply Permutation_rev.
Defined.

Lemma colliding_names_both_archived_witness :
  ∃ zip rs h,
    run_batch [says "acme"; says "acme"] [job1; job2]
    = Return (Some (zip, rs, h))
    ∧ (∃ z1 z2 z3,
         zip = z1 ++ ("PN-100 Acme Bracket.pdf", getbuffer job1) :: z2
                  ++ ("PN-100 Acme Bracket.pdf", getbuffer job2) :: z3)
    ∧ zip_read "PN-100 Acme Bracket.pdf" zip = Some (getbuffer job2).
Proof.
  assert (run_batch [says "acme"; says "acme"] [job1; job2]
          = Return (Some
              ([("PN-100 Acme Bracket.pdf", getbuffer job1);
                ("PN-100 Acme Bracket.pdf", getbuffer job2)],
               [result "job1.pdf" 0 "PN-100 Acme Bracket.pdf" "Success";
                result "job2.pdf" 1 "PN-100 Acme Bracket.pdf" "Success"],
               [ODict acme_record; ODict acme_record]))) as Hrun
    by (vm_compute; reflexivity).
  destruct (colliding_names_both_archived
              (scripted_service [says "acme"; says "acme"])
              (table_loads known_answers) plain_encoding accepting
              [job1; job2] "key" _ _ _ 0 1 job1 job2
              (result "job1.pdf" 0 "PN-100 Acme Bracket.pdf" "Success")
              (result "job2.pdf" 1 "PN-100 Acme Bracket.pdf" "Success")
              Hrun)
    as ((z1 & z2 & z3 & Hz & Hread) & _).
  - lia.
  - reflexivity.
  - reflexivity.
  - reflexivity.
  - reflexivity.
  - discriminate.
  - discriminate.
  - reflexivity.
  - eexists _, _, _. split; [exact Hrun |].
    split; [by exists z1, z2, z3 |].
    apply Hread. intros [|[|k]] rk Hk Hrk; [lia | lia | discriminate Hrk].
Defined.

(** C8, as the claim has it, fails: with two files that get the same new
    name the sealed archive still holds the earlier file's bytes under
    that name, next to the later file's. *)
Lemma collision_keeps_earlier_entry :
  ∃ zip rs h,
    run_batch [says "acme"; says "acme"] [job1; job2]
    = Return (Some (zip, rs, h))
    ∧ new_name <$> rs
      = ["PN-100 Acme Bracket.pdf"; "PN-100 Acme Bracket.pdf"]
    ∧ getbuffer job1 ≠ getbuffer job2
    ∧ ("PN-100 Acme Bracket.pdf", getbuffer job1) ∈ zip
    ∧ length zip = 2.
Proof.
  eexists _, _, _. split; [vm_compute; reflexivity |].
  split; [reflexivity |]. split; [discriminate |].
  split; [constructor | reflexivity].
Qed.

(** C7 at a failing input: the Extractor returns a record whose
    Description is the empty string; the record the result refers to
    then has "Unknown" as its Description, and so has the row of the
    results table. *)
Lemma placeholder_written_into_record :
  run_extractor [says "no description"] 0 job1
  = Return (ODict [("Customer", VStr "Acme"); ("Part Number", VStr "PN-100");
                   ("Description", VStr EmptyString)])
  ∧ run_batch [says "no description"] [job1]
    = Return (Some
        ([("PN-100 Acme Unknown.pdf", getbuffer job1)],
         [result "job1.pdf" 0 "PN-100 Acme Unknown.pdf"
            "Partial success (missing: Description)"],
         [ODict [("Customer", VStr "Acme"); ("Part Number", VStr "PN-100");
                 ("Description", VStr "Unknown")]]))
  ∧ (results_data
       [ODict [("Customer", VStr "Acme"); ("Part Number", VStr "PN-100");
               ("Description", VStr "Unknown")]]
       [result "job1.pdf" 0 "PN-100 Acme Unknown.pdf"
          "Partial success (missing: Description)"]).2
    = Return
        [{| row_original_filename := "job1.pdf";
            row_new_filename := "PN-100 Acme Unknown.pdf";
            row_status := "Partial success (missing: Description)";
            row_customer := VStr "Acme";
            row_part_number := VStr "PN-100";
            row_description := VStr "Unknown" |}].
Proof. repeat split; vm_compute; reflexivity. Qed.

(** * Further properties *)

(** ** The filename sanitizer *)

Section SanitizeMore.

Lemma length_map f s : String.length (PyStr.map f s) = String.length s.
Proof. induction s as [|c s IH]; simpl; [done | by rewrite IH]. Qed.

Lemma map_app f a b :
  PyStr.map f (a +:+ b) = PyStr.map f a +:+ PyStr.map f b.
Proof. induction a as [|c a IH]; simpl; [done | by rewrite IH]. Qed.

Lemma length_app_string a b :
  String.length (a +:+ b) = String.length a + String.length b.
Proof. induction a as [|c a IH]; simpl; [done | by rewrite IH]. Qed.

Lemma take_app_le n a b :
  n ≤ String.length a → PyStr.take n (a +:+ b) = PyStr.take n a.
Proof.
  revert a. induction n as [|n IH]; intros [|c a]; simpl; try done; try lia.
  intros H. rewrite IH; [done | lia].
Qed.

Lemma length_sanitize_filename name :
  String.length (sanitize_filename name) = min 240 (String.length name).
Proof. by rewrite sanitize_filename_eq, take_length, length_map. Qed.

Lemma scrub_absent (l : list ascii) c s :
  Forall (λ k, PyStr.mem k (String c s) = false) l →
  existsb (Ascii.eqb c) l = false ∧ Forall (λ k, PyStr.mem k s = false) l.
Proof.
  induction l as [|k l IH]; intros H; [done |].
  inversion H as [|?? Hk Hl]; subst. destruct (IH Hl) as [IH1 IH2].
  cbn in *. apply orb_false_iff in Hk as [Hk1 Hk2].
  rewrite Hk1, IH1. split; [done | by constructor].
Qed.

Lemma map_scrub_clean name :
  Forall (λ k, PyStr.mem k name = false) invalid_chars →
  PyStr.map scrub name = name.
Proof.
  induction name as [|c s IH]; intros H; [done |].
  destruct (scrub_absent _ _ _ H) as [Hc Hs].
  cbn. rewrite (IH Hs). unfold scrub, is_invalid. by rewrite Hc.
Qed.

Lemma sanitize_filename_no_invalid name c :
  is_invalid c = true → PyStr.mem c (sanitize_filename name) = false.
Proof.
  intros Hc. rewrite sanitize_filename_eq.
  destruct (PyStr.mem c (PyStr.take 240 (PyStr.map scrub name))) eqn:E;
    [|done].
  apply mem_take in E. by rewrite mem_map_scrub in E.
Qed.

(** X1: the sanitizer never lengthens a name, and cuts it to exactly 240
    characters when it is longer; it returns the empty string for the
    empty name only. *)
Theorem sanitize_filename_length (name : string) :
  String.length (sanitize_filename name) = min 240 (String.length name)
  ∧ (sanitize_filename name = EmptyString ↔ name = EmptyString).
Proof.
  split; [apply length_sanitize_filename |].
  split; [|by intros ->].
  intros H. pose proof (length_sanitize_filename name) as Hl.
  rewrite H in Hl. destruct name; [done | cbn in Hl; lia].
Qed.

(** X2: a name of at most 240 characters that contains none of the nine
    invalid characters is returned as it is. *)
Theorem sanitize_filename_keeps_clean (name : string) :
  Forall (λ k, PyStr.mem k name = false) invalid_chars →
  String.length name ≤ 240 →
  sanitize_filename name = name.
Proof.
  intros Hc Hl. rewrite sanitize_filename_eq, (map_scrub_clean _ Hc).
  by apply take_all.
Qed.

(** X3: the cut takes the extension with it: when the stem alone has 240
    characters or more, whatever follows it is dropped. *)
Theorem sanitize_filename_drops_extension (stem ext : string) :
  240 ≤ String.length stem →
  sanitize_filename (stem +:+ ext) = sanitize_filename stem.
Proof.
  intros H. rewrite !sanitize_filename_eq, map_app.
  apply take_app_le. by rewrite length_map.
Qed.

(** X4: on a name of at most 240 characters the sanitizer works part by
    part: the sanitized concatenation is the concatenation of the
    sanitized parts. *)
Theorem sanitize_filename_app (a b : string) :
  String.length (a +:+ b) ≤ 240 →
  sanitize_filename (a +:+ b) = sanitize_filename a +:+ sanitize_filename b.
Proof.
  intros H. rewrite length_app_string in H.
  rewrite !sanitize_filename_eq, map_app.
  rewrite !take_all; rewrite ?length_app_string, ?length_map; done || lia.
Qed.

End SanitizeMore.

(** ** The Extractor *)

Section ExtractorMore.

Context (service : nat → request → outcome message)
        (json_loads : string → outcome pyobj)
        (b64encode : bytes → string).

Local Abbreviation prompt_claude := (prompt_claude service json_loads b64encode).
Local Abbreviation request_for := (request_for b64encode).

Ltac run_prompt :=
  unfold prompt_claude, messages_create, content0_text, attempt,
    try_except, except_Exception, except_JSONDecodeError, perform, emit,
    raise, mbind, mret, M_bind, M_ret;
  cbn -[prompt].

(** X5: when the file cannot be read, nothing is sent to the service
    and the file is not rewound: the error is shown and logged, and the
    empty dictionary is returned. *)
Theorem prompt_claude_read_failure n pdf_file api_key e :
  read pdf_file = Raise e →
  prompt_claude n pdf_file api_key
  = ([FileRead (name pdf_file); StError; LogError], Return (ODict [])).
Proof. intros H. run_prompt. by rewrite H. Qed.

(** The events of a call whose file is read and rewound: the client is
    called once, after the rewinding, and nothing that follows calls
    it again. *)
Lemma prompt_claude_call n pdf_file api_key pdf_bytes :
  read pdf_file = Return pdf_bytes →
  seek pdf_file = Return tt →
  ∃ rest,
    (prompt_claude n pdf_file api_key).1
    = [FileRead (name pdf_file); FileSeek (name pdf_file); LogDebug;
       ApiRequest n (request_for api_key pdf_bytes)] ++ rest
    ∧ client_calls rest = 0
    ∧ ∀ transport, http_requests transport rest = 0.
Proof.
  intros Hr Hs. run_prompt. rewrite Hr. cbn -[prompt]. rewrite Hs. cbn -[prompt].
  fold (request_for api_key pdf_bytes).
  destruct (service n _) as [[|[text|] msg]|e]; cbn -[prompt];
    try (by eexists).
  destruct (json_loads text) as [o|[]]; cbn -[prompt]; by eexists.
Qed.

(** X7: only the first block of the answer is looked at, and what
    [json.loads] makes of its text is returned as it is, whether or not
    it is an object with the three fields; a text that is not parsed
    gives the empty dictionary. *)
Theorem prompt_claude_first_block n pdf_file api_key pdf_bytes text others :
  read pdf_file = Return pdf_bytes →
  seek pdf_file = Return tt →
  service n (request_for api_key pdf_bytes)
  = Return (TextBlock text :: others) →
  (prompt_claude n pdf_file api_key).2
  = Return (match json_loads text with
            | Return o => o
            | Raise _ => ODict []
            end).
Proof.
  intros Hr Hs Ha. run_prompt. rewrite Hr. cbn -[prompt]. rewrite Hs. cbn -[prompt].
  fold (request_for api_key pdf_bytes). rewrite Ha. cbn -[prompt].
  by destruct (json_loads text) as [o|[]].
Qed.

(** X8: an answer whose text is not JSON is logged twice and not shown
    to the user, while an exception of the service call is logged and
    shown; both give the empty dictionary. *)
Theorem prompt_claude_silent_on_bad_json n pdf_file api_key pdf_bytes :
  read pdf_file = Return pdf_bytes →
  seek pdf_file = Return tt →
  (∀ text others,
     service n (request_for api_key pdf_bytes)
     = Return (TextBlock text :: others) →
     json_loads text = Raise JSONDecodeError →
     prompt_claude n pdf_file api_key
     = ([FileRead (name pdf_file); FileSeek (name pdf_file); LogDebug;
         ApiRequest n (request_for api_key pdf_bytes); JsonLoads text;
         LogError; LogError], Return (ODict [])))
  ∧ (∀ e,
       service n (request_for api_key pdf_bytes) = Raise e →
       prompt_claude n pdf_file api_key
       = ([FileRead (name pdf_file); FileSeek (name pdf_file); LogDebug;
           ApiRequest n (request_for api_key pdf_bytes);
           LogError; StError], Return (ODict []))).
Proof.
  intros Hr Hs. split.
  - intros text others Ha Hj. run_prompt. rewrite Hr. cbn -[prompt]. rewrite Hs. cbn -[prompt].
    fold (request_for api_key pdf_bytes). rewrite Ha. cbn -[prompt]. by rewrite Hj.
  - intros e Ha. run_prompt. rewrite Hr. cbn -[prompt]. rewrite Hs. cbn -[prompt].
    fold (request_for api_key pdf_bytes). by rewrite Ha.
Qed.

(** The events of one call: no warning, no sleep, and requests that
    carry the key. *)
Lemma prompt_claude_events n pdf_file api_key total :
  Forall (batch_event api_key (S total)) (prompt_claude n pdf_file api_key).1
  ∧ slept (prompt_claude n pdf_file api_key).1 = 0.
Proof.
  run_prompt.
  destruct (read pdf_file) as [pdf_bytes|e]; cbn -[prompt];
    [|by split; [repeat constructor |]].
  destruct (seek pdf_file) as [[]|e]; cbn -[prompt];
    [|by split; [repeat constructor |]].
  destruct (service n _) as [[|[text|] msg]|e]; cbn -[prompt];
    try (by split; [repeat constructor |]).
  destruct (json_loads text) as [o|[]]; cbn -[prompt];
    by split; [repeat constructor |].
Qed.

End ExtractorMore.

(** X6: when the file is read and rewound, the client is called exactly
    once, after the rewinding; the call carries the key, the model
    name, the limit of 1024 tokens, the encoded bytes that were read
    and the prompt.  For this one call the client of the SDK sends at
    least one request and at most [1 + max_retries]. *)
Theorem prompt_claude_request
  (transport : nat → nat → request → http_reply)
  (json_loads : string → outcome pyobj) (b64encode : bytes → string)
  n pdf_file api_key pdf_bytes :
  read pdf_file = Return pdf_bytes →
  seek pdf_file = Return tt →
  let run :=
    prompt_claude (sdk_client transport) json_loads b64encode
      n pdf_file api_key in
  (∃ rest,
     run.1
     = [FileRead (name pdf_file); FileSeek (name pdf_file); LogDebug;
        ApiRequest n (request_for b64encode api_key pdf_bytes)] ++ rest
     ∧ client_calls rest = 0)
  ∧ client_calls run.1 = 1
  ∧ 1 ≤ http_requests transport run.1 ≤ 1 + max_retries.
Proof.
  intros Hr Hs run.
  destruct (prompt_claude_call (sdk_client transport) json_loads b64encode
              n pdf_file api_key pdf_bytes Hr Hs)
    as (rest & Htr & Hcalls & Hreq).
  fold run in Htr. rewrite Htr.
  split; [by exists rest |].
  split; [unfold client_calls in *; cbn -[prompt]; by rewrite Hcalls |].
  cbn [app http_requests foldr]. fold (http_requests transport rest).
  rewrite (Hreq transport).
  pose proof (sdk_request_bound transport n
                (request_for b64encode api_key pdf_bytes) max_retries 0).
  unfold max_retries in *. lia.
Qed.

(** ** The batch *)

Section BatchMore.

Context (service : nat → request → outcome message)
        (json_loads : string → outcome pyobj)
        (b64encode : bytes → string)
        (os_error : nat → fs_op → option exn).

Local Abbreviation prompt_claude := (prompt_claude service json_loads b64encode).
Local Abbreviation extracted := (extracted service json_loads b64encode).
Local Abbreviation loop_body :=
  (loop_body service json_loads b64encode os_error).
Local Abbreviation loop := (loop service json_loads b64encode os_error).
Local Abbreviation process_pdfs :=
  (process_pdfs service json_loads b64encode os_error).

(** *** Traces *)

Lemma fst_bind {A B} (m : M A) (f : A → M B) :
  (m ≫= f).1
  = m.1 ++ match m.2 with Return a => (f a).1 | Raise _ => [] end.
Proof. destruct m as [t [a|e]]; cbn; [done | by rewrite app_nil_r]. Qed.

Lemma fst_bind_emit {B} ev (m : M B) : (emit ev;; m).1 = ev :: m.1.
Proof. done. Qed.

Lemma is_missing_pure l k (h : heap) : (is_missing l k h).1 = [].
Proof.
  unfold is_missing. destruct (h !! l) as [[d|b c|b]|]; try done.
  - by destruct (dict_get k d).
  - by destruct (c k).
Qed.

Lemma missing_among_pure fields l (h : heap) :
  (missing_among fields l h).1 = [].
Proof.
  induction fields as [|k fields IH]; [done |].
  cbn [missing_among]. rewrite fst_bind, is_missing_pure.
  destruct (is_missing l k h).2; [|done].
  rewrite fst_bind, IH. by destruct (missing_among fields l h).2.
Qed.

Lemma fill_unknown_pure fields l (h : heap) : (fill_unknown fields l h).1 = [].
Proof.
  revert h. induction fields as [|k fields IH]; intros h; [done |].
  cbn [fill_unknown]. rewrite fst_bind.
  unfold setitem at 1 2. destruct (h !! l) as [[d|b c|b]|]; try done.
  cbn. apply IH.
Qed.

Lemma getitem_pure l k (h : heap) : (getitem l k h).1 = [].
Proof.
  unfold getitem. destruct (h !! l) as [[d|b c|b]|]; try done.
  by destruct (dict_get k d).
Qed.

Lemma write_file_pure refused path data (fs : directory) :
  (write_file refused path data fs).1 = [].
Proof. unfold write_file. by destruct refused. Qed.

Lemma rename_pure refused src dst (fs : directory) :
  (rename refused src dst fs).1 = [].
Proof. unfold rename. by destruct (fs !! src), refused. Qed.

Lemma zip_write_pure refused path arcname (fs : directory) (zip : archive) :
  (zip_write refused path arcname fs zip).1 = [].
Proof. unfold zip_write. by destruct (fs !! path), refused. Qed.

(** The events of one iteration: the progress and, unless writing the
    file is refused, the call of the Extractor, the sleep, and then at
    most a warning and a note in the log. *)
Lemma loop_body_trace api_key total i f st :
  ((loop_body api_key total i f st).1
   = [Progress i total; StatusText (name f) (i + 1) total]
   ∧ ∃ e, (loop_body api_key total i f st).2 = Raise e)
  ∨ ∃ tail,
      (loop_body api_key total i f st).1
      = Progress i total :: StatusText (name f) (i + 1) total
          :: (prompt_claude i f api_key).1 ++ Sleep 4 :: tail
      ∧ Forall (λ ev, ev = LogWarning ∨ ev = LogInfo) tail.
Proof.
  assert (∀ t1 t2 : list event,
            (t1 = [] ∨ t1 = [LogWarning]) → (t2 = [] ∨ t2 = [LogInfo]) →
            Forall (λ ev, ev = LogWarning ∨ ev = LogInfo) (t1 ++ t2)) as Hlog.
  { intros t1 t2 [-> | ->] [-> | ->]; cbn;
      repeat (apply List.Forall_cons; [(by left) || (by right) |]);
      apply List.Forall_nil. }
  unfold loop_body. rewrite !fst_bind_emit, !snd_bind_emit.
  rewrite fst_bind, snd_bind, write_file_pure.
  destruct (write_file _ _ _ _).2 as [fs|e]; [|left; split; [done | by exists e]].
  right. cbn [app]. rewrite fst_bind.
  destruct (prompt_claude_extracted service json_loads b64encode i f api_key)
    as [tr ->].
  cbn [fst snd]. rewrite fst_bind_emit.
  destruct (alloc _ _) as [data h]. destruct (is_falsy data h).
  { exists []. by split. }
  rewrite fst_bind, missing_among_pure.
  destruct (missing_among required_fields data h).2 as [missing|];
    [|exists []; by split].
  rewrite fst_bind.
  set (fill := match missing with [] => mret h | _ => _ end).
  assert (fill.1 = [] ∨ fill.1 = [LogWarning]) as Hfill.
  { subst fill. destruct missing; [by left | right].
    by rewrite fst_bind_emit, fill_unknown_pure. }
  cbn [app].
  destruct fill.2 as [h'|];
    [|eexists; split; [reflexivity | apply Hlog; auto]].
  rewrite fst_bind, getitem_pure. destruct (getitem _ _ _).2;
    [|eexists; split; [reflexivity | apply Hlog; auto]].
  rewrite fst_bind, getitem_pure. destruct (getitem _ _ _).2;
    [|eexists; split; [reflexivity | apply Hlog; auto]].
  rewrite fst_bind, getitem_pure. destruct (getitem _ _ _).2;
    [|eexists; split; [reflexivity | apply Hlog; auto]].
  rewrite fst_bind, rename_pure. destruct (rename _ _ _ _).2;
    [|eexists; split; [reflexivity | apply Hlog; auto]].
  rewrite fst_bind_emit, fst_bind, zip_write_pure.
  cbn [app].
  destruct (zip_write _ _ _ _ _).2;
    (eexists; split; [reflexivity | apply Hlog; auto]).
Qed.

Lemma client_calls_app t1 t2 :
  client_calls (t1 ++ t2) = client_calls t1 + client_calls t2.
Proof. unfold client_calls. by rewrite List.filter_app, length_app. Qed.

Lemma slept_app t1 t2 : slept (t1 ++ t2) = slept t1 + slept t2.
Proof.
  unfold slept. induction t1 as [|ev t1 IH]; [done |].
  cbn [app foldr]. rewrite IH. destruct ev; lia.
Qed.

Lemma log_tail api_key n tail :
  Forall (λ ev, ev = LogWarning ∨ ev = LogInfo) tail →
  Forall (batch_event api_key n) tail
  ∧ client_calls tail = 0 ∧ slept tail = 0.
Proof.
  induction 1 as [|ev tail [-> | ->] _ (IH1 & IH2 & IH3)]; [done | |];
    (split; [by constructor | done]).
Qed.

(** The events of the loop: every call of the client carries the key,
    there is at most one call and, when the loop runs to its end,
    exactly one sleep of 4 seconds per file. *)
Lemma loop_trace api_key total n (files : list uploaded_file) i st :
  Forall (batch_event api_key (S n)) (loop api_key total i files st).1
  ∧ client_calls (loop api_key total i files st).1 ≤ length files
  ∧ (∀ st', (loop api_key total i files st).2 = Return st' →
       slept (loop api_key total i files st).1 = 4 * length files).
Proof.
  revert i st. induction files as [|f files IH]; intros i st; [done |].
  cbn [loop]. rewrite fst_bind, snd_bind.
  destruct (loop_body_trace api_key total i f st)
    as [[-> [e ->]]|(tail & -> & Htail)].
  { rewrite app_nil_r. split; [by repeat constructor |].
    split; [cbn; lia | done]. }
  destruct (log_tail api_key (S n) tail Htail) as (Ht1 & Ht2 & Ht3).
  destruct (prompt_claude_events service json_loads b64encode
              i f api_key n) as [Hp1 Hp2].
  destruct (prompt_claude_returns service json_loads b64encode
              i f api_key) as (tr & o & Hrun & Hreq & _).
  rewrite Hrun in *. cbn [fst] in *.
  assert (Forall (batch_event api_key (S n))
            (Progress i total :: StatusText (name f) (i + 1) total
               :: tr ++ Sleep 4 :: tail)) as Hhead.
  { repeat (apply List.Forall_cons; [done |]).
    apply Forall_app. split; [done |]. by apply List.Forall_cons. }
  assert (client_calls
            (Progress i total :: StatusText (name f) (i + 1) total
               :: tr ++ Sleep 4 :: tail) ≤ 1) as Hhead_req.
  { change (client_calls (tr ++ Sleep 4 :: tail) ≤ 1).
    rewrite client_calls_app.
    change (client_calls (Sleep 4 :: tail)) with (client_calls tail). lia. }
  assert (slept
            (Progress i total :: StatusText (name f) (i + 1) total
               :: tr ++ Sleep 4 :: tail) = 4) as Hhead_sleep.
  { change (slept (tr ++ Sleep 4 :: tail) = 4).
    rewrite slept_app. cbn [slept foldr]. fold (slept tail). lia. }
  destruct (loop_body api_key total i f st).2 as [st1|e].
  - destruct (IH (S i) st1) as (IH1 & IH2 & IH3).
    split; [by apply Forall_app |].
    split; [rewrite client_calls_app; cbn [length]; lia |].
    intros st' Hst'. rewrite slept_app, (IH3 st' Hst'). cbn [length]. lia.
  - rewrite app_nil_r. split; [done |].
    split; [cbn [length]; lia | done].
Qed.

(** A block that gives a value is its body; the events of a block are
    those of its body, if any. *)
Lemma with_temp_dir_returned {A} refused_make refused_cleanup (body : M A) a :
  (with_temp_dir refused_make refused_cleanup body).2 = Return a →
  with_temp_dir refused_make refused_cleanup body = body.
Proof.
  unfold with_temp_dir.
  destruct refused_make; [done |]. by destruct refused_cleanup.
Qed.

Lemma with_temp_dir_trace {A} refused_make refused_cleanup (body : M A) :
  (with_temp_dir refused_make refused_cleanup body).1 = []
  ∨ (with_temp_dir refused_make refused_cleanup body).1 = body.1.
Proof.
  unfold with_temp_dir.
  destruct refused_make; [by left | right]. by destruct refused_cleanup.
Qed.

Lemma process_pdfs_events (files : list uploaded_file) api_key :
  Forall (batch_event api_key (length files)) (process_pdfs files api_key).1
  ∧ client_calls (process_pdfs files api_key).1 ≤ length files
  ∧ (∀ x, (process_pdfs files api_key).2 = Return (Some x) →
       slept (process_pdfs files api_key).1 = 4 * length files).
Proof.
  unfold process_pdfs. destruct files as [|f0 files0] eqn:Hfiles.
  { split; [by repeat constructor |]. split; [done |]. by intros x [=]. }
  rewrite <- Hfiles.
  set (body := (st ← loop api_key (length files) 0 files empty_batch;
                emit (Progress 1 1);;
                emit (StatusText "Processing complete!" 0 0);;
                mret (Some (zip_file st, results st, objects st)))).
  assert (Forall (batch_event api_key (length files)) body.1
          ∧ client_calls body.1 ≤ length files
          ∧ (∀ x, body.2 = Return (Some x) →
               slept body.1 = 4 * length files)) as (Hb1 & Hb2 & Hb3).
  { subst body. rewrite fst_bind, snd_bind.
    assert (length files = S (length files0)) as Hlen by (by rewrite Hfiles).
    destruct (loop_trace api_key (length files) (length files0) files 0
                empty_batch) as (H1 & H2 & H3).
    rewrite Hlen at 1.
    destruct (loop api_key (length files) 0 files empty_batch).2 as [st|e].
    - rewrite client_calls_app, slept_app.
      split; [apply Forall_app; split; [done | by repeat constructor] |].
      split; [cbn; lia |].
      intros x _. rewrite (H3 st eq_refl). cbn. lia.
    - rewrite app_nil_r. split; [done |]. split; [done | by intros x [=]]. }
  split; [|split].
  - by destruct (with_temp_dir_trace (os_error 0 MakeTempDir)
                   (os_error 0 CleanupTempDir) body) as [-> | ->].
  - destruct (with_temp_dir_trace (os_error 0 MakeTempDir)
                (os_error 0 CleanupTempDir) body) as [-> | ->];
      [cbn; lia | done].
  - intros x Hx. pose proof (with_temp_dir_returned _ _ _ _ Hx) as E.
    rewrite E in Hx |- *. by apply (Hb3 x).
Qed.

(** X9: one file is enough to lose the whole batch: when for some file
    the Extractor hands back a truthy value that is not a dictionary (a
    JSON array, string, number or [true]), [process_pdfs] raises and
    returns neither archive nor results, whatever the other files
    are. *)
Theorem unprocessable_file_aborts_batch
  (files : list uploaded_file) api_key k f o :
  files !! k = Some f →
  (prompt_claude k f api_key).2 = Return o →
  unprocessable o = true →
  ∃ e, (process_pdfs files api_key).2 = Raise e.
Proof.
  intros Hf Ho Hu.
  pose proof (process_pdfs_outcome service json_loads b64encode os_error
                files api_key) as H.
  destruct (process_pdfs files api_key).2 as [[[[zip rs] h]|]|e].
  - destruct H as (_ & _ & _ & _ & Hall).
    specialize (Hall k f Hf).
    apply file_failure_none in Hall.
    rewrite (extracted_eq service json_loads b64encode _ _ _ _ Ho) in Hall.
    congruence.
  - by subst files.
  - by exists e.
Qed.

(** X10: a batch that returns has slept 4 seconds for each of its files,
    the files without data and the last file included. *)
Theorem batch_sleeps_per_file (files : list uploaded_file) api_key x :
  (process_pdfs files api_key).2 = Return (Some x) →
  slept (process_pdfs files api_key).1 = 4 * length files.
Proof.
  intros H. destruct (process_pdfs_events files api_key) as (_ & _ & Hs).
  exact (Hs x H).
Qed.

(** The requests a trace sends lie between its calls of the client and
    [1 + max_retries] times as many. *)
Lemma http_requests_bound transport (t : list event) :
  client_calls t ≤ http_requests transport t
  ∧ http_requests transport t ≤ (1 + max_retries) * client_calls t.
Proof.
  induction t as [|ev t [IH1 IH2]]; [done |].
  destruct ev; try done.
  cbn [http_requests foldr]. fold (http_requests transport t).
  lazymatch goal with
  | |- context [ApiRequest ?c ?r :: t] =>
      change (client_calls (ApiRequest c r :: t)) with (S (client_calls t));
      pose proof (sdk_request_bound transport c r max_retries 0)
  end.
  unfold max_retries in *. lia.
Qed.

(** *** Results *)

Lemma returned_results (files : list uploaded_file) api_key zip rs h r :
  (process_pdfs files api_key).2 = Return (Some (zip, rs, h)) →
  r ∈ rs →
  ∃ k f, files !! k = Some f
         ∧ rs !! k = Some r
         ∧ r = file_result k f (extracted k f api_key)
         ∧ h !! k = Some (file_object (extracted k f api_key))
         ∧ unprocessable (extracted k f api_key) = false.
Proof.
  intros Hrun [k Hk]%list_elem_of_lookup.
  pose proof (process_pdfs_outcome service json_loads b64encode os_error
                files api_key) as H.
  rewrite Hrun in H. destruct H as (_ & Hrs & _).
  pose proof Hk as Hk'. rewrite Hrs, list_lookup_imap in Hk'.
  destruct (files !! k) as [f|] eqn:Hf; [|done].
  injection Hk' as <-.
  destruct (process_pdfs_lookup service json_loads b64encode os_error
              _ _ _ _ _ _ _ Hrun Hf) as (_ & Hh & _ & Hu).
  by exists k, f.
Qed.

Lemma new_filename_of_not_empty d : new_filename_of d ≠ EmptyString.
Proof.
  unfold new_filename_of. intros H.
  pose proof (length_sanitize_filename
                (field_text d "Part Number" +:+ " " +:+
                 field_text d "Customer" +:+ " " +:+
                 field_text d "Description" +:+ ".pdf")) as Hl.
  rewrite H in Hl. rewrite !length_app_string in Hl.
  cbn [String.length] in Hl. lia.
Qed.

Lemma invalid_chars_invalid c : c ∈ invalid_chars → is_invalid c = true.
Proof.
  intros Hc. unfold is_invalid. apply existsb_exists. exists c.
  split; [by apply list_elem_of_In | apply Ascii.eqb_refl].
Qed.

(** X12: every new name in the results of a returned batch is a
    sanitized name: it has none of the nine invalid characters and at
    most 240 characters; it is empty exactly for the results with the
    error status. *)
Theorem result_names_sanitized
  (files : list uploaded_file) api_key zip rs h r :
  (process_pdfs files api_key).2 = Return (Some (zip, rs, h)) →
  r ∈ rs →
  Forall (λ c, PyStr.mem c (new_name r) = false) invalid_chars
  ∧ String.length (new_name r) ≤ 240
  ∧ (new_name r = EmptyString ↔ status r = "Error: No data extracted").
Proof.
  intros Hrun Hr.
  destruct (returned_results _ _ _ _ _ _ Hrun Hr) as (k & f & _ & _ & -> & _).
  destruct (extracted k f api_key) as [[|p d]|b c|b]; cbn [file_result new_name status];
    try (split; [by apply Forall_forall | split; [cbn; lia | done]]).
  split; [|split].
  - apply Forall_forall. intros c Hc. unfold new_filename_of.
    by apply sanitize_filename_no_invalid, invalid_chars_invalid.
  - unfold new_filename_of. rewrite length_sanitize_filename. lia.
  - split; [by intros H%new_filename_of_not_empty |].
    by intros H%status_of_not_error.
Qed.

(** X13: the status of every result of a returned batch is one of nine
    strings: the error status, "Success", or "Partial success" with one
    of the seven non-empty selections of the three fields, in the order
    Customer, Part Number, Description. *)
Theorem result_status_among_nine
  (files : list uploaded_file) api_key zip rs h r :
  (process_pdfs files api_key).2 = Return (Some (zip, rs, h)) →
  r ∈ rs →
  status r ∈ statuses.
Proof.
  intros Hrun Hr.
  destruct (returned_results _ _ _ _ _ _ Hrun Hr) as (k & f & _ & _ & -> & _).
  apply list_elem_of_In.
  destruct (extracted k f api_key) as [[|p d]|b c|b];
    cbn [file_result status]; try (by left).
  rewrite missing_fields_canonical.
  destruct (field_missing (p :: d) "Customer"),
           (field_missing (p :: d) "Part Number"),
           (field_missing (p :: d) "Description");
    vm_compute; tauto.
Qed.

(** X14: in a returned batch the result of the file at position [i]
    refers to the object at location [i], which is the object the
    Extractor returned for that very file, with the placeholder written
    into it when the object is a non-empty dictionary: what the other
    files gave has no part in it.  There are as many objects as files,
    and no other result refers to the same object. *)
Theorem results_refer_to_own_objects
  (files : list uploaded_file) api_key zip rs h i f o r :
  (process_pdfs files api_key).2 = Return (Some (zip, rs, h)) →
  files !! i = Some f →
  (prompt_claude i f api_key).2 = Return o →
  rs !! i = Some r →
  length h = length files
  ∧ extracted_data r = i
  ∧ original_name r = name f
  ∧ h !! extracted_data r
    = Some (match o with
            | ODict ((_ :: _) as d) => ODict (filled d)
            | _ => o
            end)
  ∧ (∀ j rj, rs !! j = Some rj → j ≠ i →
       extracted_data rj ≠ extracted_data r).
Proof.
  intros Hrun Hf Ho Hr.
  destruct (process_pdfs_lookup service json_loads b64encode os_error
              _ _ _ _ _ _ _ Hrun Hf) as (Hr' & Hh & _).
  rewrite (extracted_eq service json_loads b64encode _ _ _ _ Ho) in Hr', Hh.
  rewrite Hr in Hr'. injection Hr' as ->.
  pose proof (process_pdfs_outcome service json_loads b64encode os_error
                files api_key) as H.
  rewrite Hrun in H. destruct H as (_ & Hrs & Hheap & _).
  split; [by rewrite Hheap, length_imap |].
  split; [done |]. split; [done |].
  split; [exact Hh |].
  intros j rj Hj Hne. rewrite Hrs, list_lookup_imap in Hj.
  destruct (files !! j); [|done]. by injection Hj as <-.
Qed.

Lemma status_of_success m : status_of m = "Success" → m = [].
Proof. by destruct m. Qed.

(** X15: the record is written into only for a partial success: for a
    file whose status is "Success" or the error status, the object its
    result refers to is the object the Extractor returned. *)
Theorem record_kept_unless_partial
  (files : list uploaded_file) api_key zip rs h i f o r :
  (process_pdfs files api_key).2 = Return (Some (zip, rs, h)) →
  files !! i = Some f →
  (prompt_claude i f api_key).2 = Return o →
  rs !! i = Some r →
  status r = "Success" ∨ status r = "Error: No data extracted" →
  h !! extracted_data r = Some o.
Proof.
  intros Hrun Hf Ho Hr Hs.
  destruct (process_pdfs_lookup service json_loads b64encode os_error
              _ _ _ _ _ _ _ Hrun Hf) as (Hr' & Hh & _).
  rewrite (extracted_eq service json_loads b64encode _ _ _ _ Ho) in Hr', Hh.
  rewrite Hr in Hr'. injection Hr' as ->. cbn [extracted_data file_result].
  rewrite Hh. f_equal. revert Hs. cbn [status file_result].
  destruct o as [[|p d]|b c|b]; try done. cbn [file_object].
  intros [Hs|Hs]; [|by apply status_of_not_error in Hs].
  unfold filled. by rewrite (status_of_success _ Hs).
Qed.

Lemma missing_fields_of_elem d k :
  existsb (String.eqb k) (missing_fields_of d) = true
  ↔ k ∈ required_fields ∧ field_missing d k = true.
Proof.
  rewrite existsb_exists. split.
  - intros (k' & [Hk' Hm]%filter_In & ->%String.eqb_eq).
    split; [by apply list_elem_of_In | done].
  - intros [Hk Hm]. exists k. split; [|apply String.eqb_refl].
    apply filter_In. split; [by apply list_elem_of_In | done].
Qed.

Lemma dict_get_filled d k :
  dict_get k (filled d)
  = if existsb (String.eqb k) (missing_fields_of d)
    then Some (VStr "Unknown") else dict_get k d.
Proof. unfold filled. apply dict_get_fill. Qed.

Lemma field_missing_filled d k :
  k ∈ required_fields → field_missing (filled d) k = false.
Proof.
  intros Hk. unfold field_missing at 1. rewrite dict_get_filled.
  destruct (existsb _ _) eqn:E; [done |].
  fold (field_missing d k). destruct (field_missing d k) eqn:Hm; [|done].
  assert (existsb (String.eqb k) (missing_fields_of d) = true) as E'
    by (by apply missing_fields_of_elem).
  congruence.
Qed.

(** X16: after a file with a non-empty record has been processed, the
    record its result refers to has the three required fields present
    and truthy, and every other key as the Extractor returned it. *)
Theorem stored_record_complete
  (files : list uploaded_file) api_key zip rs h i f d :
  (process_pdfs files api_key).2 = Return (Some (zip, rs, h)) →
  files !! i = Some f →
  (prompt_claude i f api_key).2 = Return (ODict d) →
  d ≠ [] →
  ∃ d', h !! i = Some (ODict d')
        ∧ Forall (λ field, field_missing d' field = false) required_fields
        ∧ (∀ k, k ∉ required_fields → dict_get k d' = dict_get k d)
        ∧ (∀ k, field_missing d k = false → dict_get k d' = dict_get k d).
Proof.
  intros Hrun Hf Ho Hne.
  destruct (process_pdfs_record service json_loads b64encode os_error
              _ _ _ _ _ _ _ _ Hrun Hf Ho Hne) as (_ & Hh & _).
  exists (filled d). split; [done |]. split; [|split].
  - apply Forall_forall. intros k Hk. by apply field_missing_filled.
  - intros k Hk. rewrite dict_get_filled.
    destruct (existsb _ _) eqn:E; [|done].
    by apply missing_fields_of_elem in E as [? _].
  - intros k Hk. rewrite dict_get_filled.
    destruct (existsb _ _) eqn:E; [|done].
    apply missing_fields_of_elem in E as [_ ?]. congruence.
Qed.

(** *** The table of results *)

Lemma results_row_dict (h : heap) r d :
  h !! extracted_data r = Some (ODict d) →
  results_row h r = ([], Return (row_of d r)).
Proof. intros H. unfold results_row, get_or_empty. by rewrite H. Qed.

Lemma results_row_not_dict (h : heap) r :
  (∀ d, h !! extracted_data r ≠ Some (ODict d)) →
  results_row h r = ([], Raise AttributeError).
Proof.
  intros H. unfold results_row, get_or_empty.
  destruct (h !! extracted_data r) as [[d| |]|]; try done.
  by destruct (H d).
Qed.

Lemma results_data_outcome (h : heap) rs :
  match (results_data h rs).2 with
  | Return rows =>
      Forall2 (λ r row, ∃ d, h !! extracted_data r = Some (ODict d)
                             ∧ row = row_of d r) rs rows
  | Raise e =>
      e = AttributeError
      ∧ ∃ r, r ∈ rs ∧ ∀ d, h !! extracted_data r ≠ Some (ODict d)
  end.
Proof.
  induction rs as [|r rs IH]; [by constructor |].
  cbn [results_data]. rewrite snd_bind.
  destruct (h !! extracted_data r) as [o|] eqn:Ho.
  - destruct o as [d|b c|b].
    + rewrite (results_row_dict h r d Ho). cbn [snd]. rewrite snd_bind.
      destruct (results_data h rs).2 as [rows|e].
      * cbn. constructor; [by exists d | done].
      * destruct IH as (-> & r' & Hr' & Hd). split; [done |].
        exists r'. split; [by constructor | done].
    + rewrite results_row_not_dict by (intros d; by rewrite Ho).
      split; [done |]. exists r. split; [constructor |].
      intros d. by rewrite Ho.
    + rewrite results_row_not_dict by (intros d; by rewrite Ho).
      split; [done |]. exists r. split; [constructor |].
      intros d. by rewrite Ho.
  - rewrite results_row_not_dict by (intros d; by rewrite Ho).
    split; [done |]. exists r. split; [constructor |].
    intros d. by rewrite Ho.
Qed.

(** X17: the table cannot be built for a batch in which the Extractor
    handed back, for some file, a value that is not a dictionary (such a
    value is falsy in a returned batch: JSON [null], [false], zero, an
    empty string or array): [results_data] raises [AttributeError],
    although the batch returned its archive and results. *)
Theorem results_table_fails_on_non_dict
  (files : list uploaded_file) api_key zip rs h k f o :
  (process_pdfs files api_key).2 = Return (Some (zip, rs, h)) →
  files !! k = Some f →
  (prompt_claude k f api_key).2 = Return o →
  (∀ d, o ≠ ODict d) →
  obj_truthy o = false
  ∧ (results_data h rs).2 = Raise AttributeError.
Proof.
  intros Hrun Hf Ho Hd.
  destruct (process_pdfs_lookup service json_loads b64encode os_error
              _ _ _ _ _ _ _ Hrun Hf) as (Hr & Hh & _ & Hu).
  rewrite (extracted_eq service json_loads b64encode _ _ _ _ Ho)
    in Hr, Hh, Hu.
  split; [destruct o as [d|b c|b]; [by destruct (Hd d) | done | done] |].
  pose proof (results_data_outcome h rs) as H.
  destruct (results_data h rs).2 as [rows|e]; [|by destruct H as [-> _]].
  exfalso.
  destruct (Forall2_lookup_l _ _ _ _ _ H Hr) as (row & _ & d & Hd' & _).
  cbn [extracted_data file_result] in Hd'. rewrite Hh in Hd'.
  injection Hd' as Hd'. destruct o as [d0|b c|b]; try done.
  by destruct (Hd d0).
Qed.

(** X18: when the Extractor handed back a dictionary for every file of
    a returned batch, the table has one row per file, in order, with
    the name and the status of the result.  The new name is shown as
    "N/A" exactly for the results with the error status, whose three
    fields are shown as empty strings; the three fields of every other
    result are truthy, the placeholder standing for what was missing. *)
Theorem results_table_rows
  (files : list uploaded_file) api_key zip rs h :
  (process_pdfs files api_key).2 = Return (Some (zip, rs, h)) →
  (∀ k f, files !! k = Some f →
     ∃ d, (prompt_claude k f api_key).2 = Return (ODict d)) →
  ∃ rows,
    (results_data h rs).2 = Return rows
    ∧ length rows = length files
    ∧ ∀ i r, rs !! i = Some r →
        ∃ row, rows !! i = Some row
          ∧ row_original_filename row = original_name r
          ∧ row_status row = status r
          ∧ (row_new_filename row = "N/A"
             ↔ status r = "Error: No data extracted")
          ∧ (status r = "Error: No data extracted" →
               row_new_filename row = "N/A"
               ∧ row_customer row = VStr EmptyString
               ∧ row_part_number row = VStr EmptyString
               ∧ row_description row = VStr EmptyString)
          ∧ (status r ≠ "Error: No data extracted" →
               row_new_filename row = new_name r
               ∧ truthy (row_customer row) = true
               ∧ truthy (row_part_number row) = true
               ∧ truthy (row_description row) = true).
Proof.
  intros Hrun Hdicts.
  pose proof (results_data_outcome h rs) as H.
  pose proof (process_pdfs_outcome service json_loads b64encode os_error
                files api_key) as Hout.
  rewrite Hrun in Hout. destruct Hout as (_ & Hrs & _).
  destruct (results_data h rs).2 as [rows|e].
  - exists rows. split; [done |].
    split; [by rewrite <- (Forall2_length _ _ _ H), Hrs, length_imap |].
    intros i r Hr.
    destruct (Forall2_lookup_l _ _ _ _ _ H Hr) as (row & Hrow & d & Hd & ->).
    exists (row_of d r). split; [done |].
    assert (r ∈ rs) as Hin by (apply list_elem_of_lookup; by exists i).
    destruct (returned_results _ _ _ _ _ _ Hrun Hin)
      as (k & f & Hf & _ & -> & Hh & _).
    destruct (Hdicts k f Hf) as [d0 Hd0].
    rewrite (extracted_eq service json_loads b64encode _ _ _ _ Hd0) in *.
    cbn [extracted_data file_result] in Hd. rewrite Hh in Hd.
    destruct d0 as [|p d0]; cbn [file_object] in Hd; injection Hd as <-.
    + cbn. repeat split; try done.
    + cbn [file_object file_result row_of original_name status new_name
           row_original_filename row_status row_new_filename
           row_customer row_part_number row_description].
      assert (PyStr.is_empty (new_filename_of (p :: d0)) = false) as ->.
      { pose proof (new_filename_of_not_empty (p :: d0)).
        by destruct (new_filename_of (p :: d0)). }
      assert (new_filename_of (p :: d0) ≠ "N/A") as Hna.
      { intros E.
        pose proof (sanitize_filename_no_invalid
                      (field_text (p :: d0) "Part Number" +:+ " " +:+
                       field_text (p :: d0) "Customer" +:+ " " +:+
                       field_text (p :: d0) "Description" +:+ ".pdf")
                      "/"%char eq_refl) as Hm.
        fold (new_filename_of (p :: d0)) in Hm. by rewrite E in Hm. }
      assert (∀ k, k ∈ required_fields →
                truthy (default (VStr EmptyString)
                          (dict_get k (filled (p :: d0)))) = true) as Htruthy.
      { intros k' Hk'. pose proof (field_missing_filled (p :: d0) k' Hk') as Hm.
        unfold field_missing in Hm.
        destruct (dict_get k' (filled (p :: d0))) as [v|]; [|done].
        cbn. by destruct (truthy v). }
      split; [done |]. split; [done |].
      split; [split; [done | by intros ?%status_of_not_error] |].
      split; [by intros ?%status_of_not_error |].
      intros _. split; [done |].
      repeat split; apply Htruthy; by repeat constructor.
  - exfalso. destruct H as (_ & r & Hin & Hnd).
    destruct (returned_results _ _ _ _ _ _ Hrun Hin)
      as (k & f & Hf & _ & -> & Hh & _).
    destruct (Hdicts k f Hf) as [d0 Hd0].
    rewrite (extracted_eq service json_loads b64encode _ _ _ _ Hd0) in *.
    cbn [extracted_data file_result] in Hnd. rewrite Hh in Hnd.
    destruct d0 as [|p d0]; by eapply Hnd.
Qed.

(** *** Names and the archive *)

(** X19: a non-empty record that has none of the three fields (or has
    them all empty) is no error: in a batch that returns, the file is
    renamed "Unknown Unknown Unknown.pdf", archived under that name,
    and its status lists the three fields; any two such files of a
    batch collide. *)
Theorem record_without_fields_renamed
  (files : list uploaded_file) api_key zip rs h i f d :
  (process_pdfs files api_key).2 = Return (Some (zip, rs, h)) →
  files !! i = Some f →
  (prompt_claude i f api_key).2 = Return (ODict d) →
  d ≠ [] →
  Forall (λ field, field_missing d field = true) required_fields →
  ∃ r,
    rs !! i = Some r
    ∧ new_name r = "Unknown Unknown Unknown.pdf"
    ∧ status r
      = "Partial success (missing: Customer, Part Number, Description)"
    ∧ ("Unknown Unknown Unknown.pdf", getbuffer f) ∈ zip.
Proof.
  intros Hrun Hf Ho Hne Hm.
  destruct (process_pdfs_record service json_loads b64encode os_error
              _ _ _ _ _ _ _ _ Hrun Hf Ho Hne) as (Hr & _ & Hz).
  rewrite Forall_forall in Hm.
  assert (field_missing d "Customer" = true) as Hc
    by (apply Hm; by repeat constructor).
  assert (field_missing d "Part Number" = true) as Hp
    by (apply Hm; by repeat constructor).
  assert (field_missing d "Description" = true) as Hd
    by (apply Hm; by repeat constructor).
  assert (new_filename_of d = "Unknown Unknown Unknown.pdf") as Hn.
  { unfold new_filename_of. rewrite !field_text_missing, Hc, Hp, Hd.
    reflexivity. }
  rewrite Hn in Hr, Hz.
  eexists. split; [exact Hr |].
  split; [done |]. split; [|done].
  cbn [status]. by rewrite missing_fields_canonical, Hc, Hp, Hd.
Qed.

(** X27: no file operation of the loop is guarded: when the operating
    system refuses, for one file, to write the uploaded file into the
    temporary directory, to rename it or to add the renamed file to
    the archive, [process_pdfs] raises and returns neither archive nor
    results, also for the files it had processed before. *)
Theorem refused_operation_aborts_batch
  (files : list uploaded_file) api_key k f e :
  files !! k = Some f →
  os_error k (OpenWrite (name f)) = Some e
  ∨ (∃ d, (prompt_claude k f api_key).2 = Return (ODict d)
          ∧ d ≠ []
          ∧ (os_error k (RenameTo (name f) (new_filename_of d)) = Some e
             ∨ os_error k (ZipWrite (new_filename_of d) (new_filename_of d))
               = Some e)) →
  ∃ e', (process_pdfs files api_key).2 = Raise e'.
Proof.
  intros Hf Hrefused.
  pose proof (process_pdfs_outcome service json_loads b64encode os_error
                files api_key) as H.
  destruct (process_pdfs files api_key).2 as [[[[zip rs] h]|]|e'].
  - exfalso. destruct H as (_ & _ & _ & _ & Hall).
    specialize (Hall k f Hf). revert Hall. unfold file_failure.
    destruct Hrefused as [-> | (d & Ho & Hne & Hop)]; [done |].
    rewrite (extracted_eq service json_loads b64encode _ _ _ _ Ho).
    destruct (os_error k (OpenWrite (name f))); [done |].
    destruct d as [|p d]; [done |]. cbn [unprocessable].
    destruct Hop as [-> | Hzip]; [done |].
    destruct (os_error k (RenameTo _ _)); [done |]. by rewrite Hzip.
  - by subst files.
  - by exists e'.
Qed.

(** X28: the batch returns its archive and one result per file when it
    has a file, the operating system refuses nothing and no file has a
    truthy extracted value that is not a dictionary. *)
Theorem batch_returns_unless_refused (files : list uploaded_file) api_key :
  files ≠ [] →
  (∀ i op, os_error i op = None) →
  (∀ k f o, files !! k = Some f →
     (prompt_claude k f api_key).2 = Return o → unprocessable o = false) →
  ∃ zip rs h,
    (process_pdfs files api_key).2 = Return (Some (zip, rs, h))
    ∧ length rs = length files.
Proof.
  intros Hne Hos Hok.
  assert (∃ st, (loop api_key (length files) 0 files empty_batch).2
                = Return st ∧ length (results st) = length files)
    as (st & Hloop & Hlen).
  { pose proof (loop_outcome service json_loads b64encode os_error
                  api_key (length files) files 0 empty_batch) as H.
    destruct (loop api_key (length files) 0 files empty_batch).2 as [st|e].
    - exists st. split; [done |]. destruct H as (-> & _).
      cbn [results empty_batch app]. by rewrite length_imap.
    - exfalso. destruct H as (k & f & Hf & Hfail). revert Hfail.
      unfold file_failure. rewrite !Hos, Nat.add_0_l.
      rewrite (Hok k f _ Hf
                 (extracted_returned service json_loads b64encode
                    k f api_key)).
      destruct (extracted k f api_key) as [[|p d]| |]; by rewrite ?Hos. }
  exists (zip_file st), (results st), (objects st). split; [|done].
  unfold process_pdfs. destruct files as [|f0 files0]; [done |].
  cbv iota. unfold with_temp_dir. rewrite !Hos.
  rewrite snd_bind, Hloop. by rewrite !snd_bind_emit.
Qed.

Lemma length_entries (a : nat → loc) (g : nat → uploaded_file → pyobj)
  (files : list uploaded_file) :
  length (concat (imap (λ k f, file_entries f (g k f)) files))
  = length (List.filter
              (λ r, negb (String.eqb (status r) "Error: No data extracted"))
              (imap (λ k f, file_result (a k) f (g k f)) files)).
Proof.
  revert a g. induction files as [|f files IH]; intros a g; [done |].
  rewrite !imap_cons. cbn [concat List.filter]. rewrite length_app.
  specialize (IH (λ k, a (S k)) (λ k, g (S k))).
  unfold compose. cbv beta in IH |- *. rewrite IH.
  destruct (g 0 f) as [[|p d]|b c|b]; cbn [file_entries file_result status];
    try done.
  destruct (String.eqb_spec (status_of (missing_fields_of (p :: d)))
              "Error: No data extracted") as [E|_]; [|done].
  by apply status_of_not_error in E.
Qed.

(** X20: the archive of a returned batch has as many entries as there
    are results without the error status, hence at most one per file;
    it is empty when every file ended with the error status. *)
Theorem archive_size (files : list uploaded_file) api_key zip rs h :
  (process_pdfs files api_key).2 = Return (Some (zip, rs, h)) →
  length zip
  = length (List.filter
              (λ r, negb (String.eqb (status r) "Error: No data extracted"))
              rs)
  ∧ length zip ≤ length files.
Proof.
  intros Hrun.
  pose proof (process_pdfs_outcome service json_loads b64encode os_error
                files api_key) as H.
  rewrite Hrun in H. destruct H as (_ & -> & _ & -> & _).
  rewrite (length_entries id). split; [done |].
  etransitivity; [apply filter_length_le |]. by rewrite length_imap.
Qed.

End BatchMore.

(** X11: a batch calls the client at most once per file, whether it
    returns or raises, and every call carries the key the batch was
    given; with the retries of the client of the SDK, it sends at most
    [1 + max_retries] requests per file. *)
Theorem batch_requests
  (transport : nat → nat → request → http_reply)
  (json_loads : string → outcome pyobj) (b64encode : bytes → string)
  (os_error : nat → fs_op → option exn)
  (files : list uploaded_file) api_key :
  let run :=
    process_pdfs (sdk_client transport) json_loads b64encode os_error
      files api_key in
  client_calls run.1 ≤ length files
  ∧ http_requests transport run.1 ≤ (1 + max_retries) * length files
  ∧ ∀ n req, ApiRequest n req ∈ run.1 → req_api_key req = api_key.
Proof.
  intros run.
  destruct (process_pdfs_events (sdk_client transport) json_loads b64encode
              os_error files api_key) as (Hev & Hreq & _).
  fold run in Hev, Hreq.
  destruct (http_requests_bound transport run.1) as [_ Hhttp].
  split; [done |]. split; [unfold max_retries in *; lia |].
  intros n req Hin. rewrite Forall_forall in Hev. exact (Hev _ Hin).
Qed.

(** ** The page *)

Section PageProperties.

Context (service : nat → request → outcome message)
        (json_loads : string → outcome pyobj)
        (b64encode : bytes → string)
        (os_error : nat → fs_op → option exn).

Local Abbreviation prompt_claude := (prompt_claude service json_loads b64encode).
Local Abbreviation process_pdfs :=
  (process_pdfs service json_loads b64encode os_error).
Local Abbreviation handle_process :=
  (handle_process service json_loads b64encode os_error).
Local Abbreviation page := (page service json_loads b64encode os_error).

#[local] Set Warnings "-clear-no-such-hyp".

Ltac run_page :=
  unfold resolve_api_key, when, display, mbind, mret, P_bind, P_ret;
  cbn.

(** X21: the key is the typed text when there is one; else the entry of
    the secrets store when it is not empty; else what the environment
    holds.  The secrets store is looked up only when no text was typed
    (so only then can its failure stop the page), and the environment
    file is loaded only when neither the text nor the store gave a
    key. *)
Theorem api_key_precedence manual show_api_status secrets getenv :
  (resolve_api_key manual show_api_status secrets getenv).2
  = (if PyStr.is_empty manual then
       match secrets with
       | Raise e => Raise e
       | Return s => Return (if key_truthy s then s else getenv)
       end
     else Return (Some manual))
  ∧ (LoadDotenv ∈ (resolve_api_key manual show_api_status secrets getenv).1
     ↔ manual = EmptyString
       ∧ ∃ s, secrets = Return s ∧ key_truthy s = false).
Proof.
  run_page.
  destruct manual as [|c manual], secrets as [[[|c' s]|]|e],
    show_api_status, getenv as [[|c'' g]|]; cbn;
    (split; [done |]); rewrite list_elem_of_In; cbn; naive_solver.
Qed.

(** X22: the notices about the key.  The error "No API key found" is
    shown exactly when the status display is on and no truthy key was
    found.  The notice that the key was loaded from the secrets store
    is shown whenever the display is on, no text was typed and the
    store has the entry: also when the entry is empty and the key then
    comes from the environment, or from nowhere. *)
Theorem api_key_notices manual show_api_status s getenv :
  let run := resolve_api_key manual show_api_status (Return s) getenv in
  (StErrorNoKey ∈ run.1
   ↔ show_api_status = true
     ∧ ∃ k, run.2 = Return k ∧ key_truthy k = false)
  ∧ (StSuccess KeyFromSecrets ∈ run.1
     ↔ show_api_status = true ∧ manual = EmptyString ∧ is_Some s)
  ∧ (StSuccess KeyFromEnvironment ∈ run.1
     ↔ show_api_status = true ∧ manual = EmptyString
       ∧ key_truthy s = false ∧ key_truthy getenv = true).
Proof.
  run_page.
  destruct manual as [|c manual], s as [[|c' s]|],
    show_api_status, getenv as [[|c'' g]|]; cbn;
    rewrite !list_elem_of_In; cbn; unfold is_Some; naive_solver.
Qed.

(** The table is built without events. *)
Lemma results_data_pure (h : heap) rs : (results_data h rs).1 = [].
Proof.
  induction rs as [|r rs IH]; [done |].
  cbn [results_data]. rewrite fst_bind.
  assert ((results_row h r).1 = []) as ->.
  { unfold results_row, get_or_empty.
    by destruct (h !! extracted_data r) as [[d| |]|]. }
  destruct (results_row h r).2; [|done].
  rewrite fst_bind, IH. by destruct (results_data h rs).2.
Qed.

(** What the handler of the button shows, case by case. *)
Lemma handle_process_run (files : list uploaded_file) api_key :
  handle_process files api_key
  = ((Core <$> (process_pdfs files api_key).1)
       ++ match (process_pdfs files api_key).2 with
          | Raise e => [StErrorProcessing e; LogProcessingError e]
          | Return None => []
          | Return (Some (zip, rs, h)) =>
              [StSuccess ProcessingComplete; DownloadButton zip; StSubheader]
              ++ match (results_data h rs).2 with
                 | Return rows => [Dataframe rows]
                 | Raise e => [StErrorProcessing e; LogProcessingError e]
                 end
          end,
     Return tt).
Proof.
  unfold handle_process, catching, call, display, mbind, mret, P_bind, P_ret.
  destruct (process_pdfs files api_key) as [t [[[[zip rs] h]|]|e]]; cbn.
  - rewrite results_data_pure.
    destruct (results_data h rs).2 as [rows|e]; cbn;
      by rewrite <- ?app_assoc.
  - by rewrite app_nil_r.
  - done.
Qed.

Lemma fst_bind_page {A B} (m : P A) (f : A → P B) :
  (m ≫= f).1
  = m.1 ++ match m.2 with Return a => (f a).1 | Raise _ => [] end.
Proof. destruct m as [t [a|e]]; cbn; [done | by rewrite app_nil_r]. Qed.

Lemma resolve_api_key_no_core manual show_api_status secrets getenv ev :
  Core ev ∉ (resolve_api_key manual show_api_status secrets getenv).1.
Proof.
  run_page.
  destruct manual as [|c manual], secrets as [[[|c' s]|]|e],
    show_api_status, getenv as [[|c'' g]|]; cbn;
    rewrite !list_elem_of_In; cbn; naive_solver.
Qed.

(** The events of a run of the page: those of the key, the count of
    the selected files, and those of the handler when the button is
    enabled and pressed. *)
Lemma page_run manual show_api_status secrets getenv
  (files : list uploaded_file) clicked :
  (page manual show_api_status secrets getenv files clicked).1
  = (resolve_api_key manual show_api_status secrets getenv).1
    ++ match (resolve_api_key manual show_api_status secrets getenv).2 with
       | Raise _ => []
       | Return api_key =>
           (if bool_decide (files = []) then []
            else [StInfoSelected (length files)])
           ++ match api_key with
              | Some k =>
                  if clicked && negb (PyStr.is_empty k)
                     && negb (bool_decide (files = []))
                  then (handle_process files k).1
                  else []
              | None => []
              end
       end.
Proof.
  unfold page. rewrite fst_bind_page. f_equal.
  destruct (resolve_api_key manual show_api_status secrets getenv).2
    as [api_key|e]; [|done].
  rewrite fst_bind_page. unfold when, display, st_button.
  destruct (bool_decide (files = [])), clicked, api_key as [[|c k]|];
    cbn; by rewrite ?app_nil_r.
Qed.

(** X23: pressing the button runs the batch only with a truthy key and
    at least one file: every event of the program's functions on the
    page has these as its cause, every request carries the resolved
    key, and the warning of [process_pdfs] about an empty list of files
    never appears. *)
Theorem page_runs_batch_only_when_enabled
  manual show_api_status secrets getenv (files : list uploaded_file) clicked :
  let run := page manual show_api_status secrets getenv files clicked in
  (∀ ev, Core ev ∈ run.1 →
     clicked = true ∧ files ≠ []
     ∧ ∃ k, (resolve_api_key manual show_api_status secrets getenv).2
            = Return (Some k)
            ∧ k ≠ EmptyString
            ∧ ev ∈ (process_pdfs files k).1)
  ∧ (∀ n req, Core (ApiRequest n req) ∈ run.1 →
       (resolve_api_key manual show_api_status secrets getenv).2
       = Return (Some (req_api_key req)))
  ∧ Core StWarning ∉ run.1.
Proof.
  intros run.
  assert (∀ ev, Core ev ∈ run.1 →
            clicked = true ∧ files ≠ []
            ∧ ∃ k, (resolve_api_key manual show_api_status secrets getenv).2
                   = Return (Some k)
                   ∧ k ≠ EmptyString
                   ∧ ev ∈ (process_pdfs files k).1) as Hcore.
  { intros ev. subst run. rewrite page_run.
    intros [H|H]%elem_of_app; [by apply resolve_api_key_no_core in H |].
    destruct (resolve_api_key manual show_api_status secrets getenv).2
      as [api_key|e]; [|by apply elem_of_nil in H].
    apply elem_of_app in H as [H|H].
    { destruct (bool_decide (files = []));
        rewrite list_elem_of_In in H; cbn in H; naive_solver. }
    destruct api_key as [k|]; [|by apply elem_of_nil in H].
    destruct clicked; [|by apply elem_of_nil in H].
    destruct k as [|c k]; [by apply elem_of_nil in H |].
    destruct (decide (files = [])) as [->|Hne]; [by apply elem_of_nil in H |].
    rewrite bool_decide_eq_false_2 in H by done. cbn [andb negb PyStr.is_empty] in H.
    rewrite handle_process_run in H. cbn [fst] in H.
    split; [done |]. split; [done |]. exists (String c k).
    split; [done |]. split; [done |].
    apply elem_of_app in H as [H|H].
    - by apply list_elem_of_fmap_inj in H; [|intros ?? [=]].
    - exfalso.
      destruct (process_pdfs files (String c k)).2 as [[[[zip rs] h]|]|e];
        rewrite list_elem_of_In in H; cbn in H;
        [destruct (results_data h rs).2| |]; naive_solver. }
  split; [done |]. split.
  - intros n req H. destruct (Hcore _ H) as (_ & _ & k & Hk & _ & Hin).
    rewrite Hk. do 2 f_equal. symmetry.
    destruct (process_pdfs_events service json_loads b64encode os_error files k)
      as (Hev & _).
    rewrite Forall_forall in Hev. exact (Hev _ Hin).
  - intros H. destruct (Hcore _ H) as (_ & Hne & k & _ & _ & Hin).
    destruct (process_pdfs_events service json_loads b64encode os_error files k)
      as (Hev & _).
    rewrite Forall_forall in Hev. specialize (Hev _ Hin). cbn in Hev.
    by destruct files.
Qed.

Lemma results_data_returns (files : list uploaded_file) api_key zip rs h :
  (process_pdfs files api_key).2 = Return (Some (zip, rs, h)) →
  (∀ k f, files !! k = Some f →
     ∃ d, (prompt_claude k f api_key).2 = Return (ODict d)) →
  ∃ rows, (results_data h rs).2 = Return rows ∧ length rows = length files.
Proof.
  intros Hrun Hdicts.
  pose proof (results_data_outcome h rs) as H.
  destruct (results_data h rs).2 as [rows|e].
  - exists rows. split; [done |].
    rewrite <- (Forall2_length _ _ _ H).
    pose proof (process_pdfs_outcome service json_loads b64encode os_error
                  files api_key) as Hout.
    rewrite Hrun in Hout. destruct Hout as (_ & -> & _).
    by rewrite length_imap.
  - exfalso. destruct H as (_ & r & Hin & Hnd).
    destruct (returned_results service json_loads b64encode os_error
                _ _ _ _ _ _ Hrun Hin) as (k & f & Hf & _ & -> & Hh & _).
    destruct (Hdicts k f Hf) as [d0 Hd0].
    rewrite (extracted_eq service json_loads b64encode _ _ _ _ Hd0) in *.
    cbn [extracted_data file_result] in Hnd. rewrite Hh in Hnd.
    destruct d0 as [|p d0]; by eapply Hnd.
Qed.

(** X24: when for some file the Extractor hands back a truthy value
    that is not a dictionary, the batch raises, and the page shows the
    events of the batch up to the failure and then the processing
    error, which it also logs: no download is offered and no table is
    shown, for any file. *)
Theorem page_after_unprocessable_file
  (files : list uploaded_file) api_key k f o :
  files !! k = Some f →
  (prompt_claude k f api_key).2 = Return o →
  unprocessable o = true →
  ∃ e,
    (process_pdfs files api_key).2 = Raise e
    ∧ handle_process files api_key
      = ((Core <$> (process_pdfs files api_key).1)
           ++ [StErrorProcessing e; LogProcessingError e], Return tt).
Proof.
  intros Hf Ho Hu. rewrite handle_process_run.
  pose proof (process_pdfs_outcome service json_loads b64encode os_error
                files api_key) as H.
  destruct (process_pdfs files api_key).2 as [[[[zip rs] h]|]|e].
  - destruct H as (_ & _ & _ & _ & Hall). specialize (Hall k f Hf).
    apply file_failure_none in Hall.
    rewrite (extracted_eq service json_loads b64encode _ _ _ _ Ho) in Hall.
    congruence.
  - by subst files.
  - by exists e.
Qed.

(** X25: when the batch returned but the Extractor handed back, for
    some file, a value that is not a dictionary (JSON [null], [false],
    zero, an empty string or array), the page announces success and
    offers the download, and then, under the heading of the results,
    shows the processing error with [AttributeError] in the place of
    the table, and logs it. *)
Theorem page_after_falsy_non_dict
  (files : list uploaded_file) api_key zip rs h k f o :
  (process_pdfs files api_key).2 = Return (Some (zip, rs, h)) →
  files !! k = Some f →
  (prompt_claude k f api_key).2 = Return o →
  (∀ d, o ≠ ODict d) →
  handle_process files api_key
  = ((Core <$> (process_pdfs files api_key).1)
       ++ [StSuccess ProcessingComplete; DownloadButton zip;
           StSubheader; StErrorProcessing AttributeError;
           LogProcessingError AttributeError], Return tt).
Proof.
  intros Hrun Hf Ho Hd.
  rewrite handle_process_run, Hrun.
  destruct (process_pdfs_lookup service json_loads b64encode os_error
              _ _ _ _ _ _ _ Hrun Hf) as (Hr & Hh & _).
  rewrite (extracted_eq service json_loads b64encode _ _ _ _ Ho) in Hr, Hh.
  pose proof (results_data_outcome h rs) as H.
  destruct (results_data h rs).2 as [rows|e]; [|by destruct H as [-> _]].
  exfalso.
  destruct (Forall2_lookup_l _ _ _ _ _ H Hr) as (row & _ & d & Hd' & _).
  cbn [extracted_data file_result] in Hd'. rewrite Hh in Hd'.
  injection Hd' as Hd'. destruct o as [d0|b c|b]; try done.
  by destruct (Hd d0).
Qed.

(** X26: when the batch returned and the Extractor handed back a
    dictionary for every file, the page announces success, offers the
    archive for download and shows the table, which has one row per
    file; no error is shown or logged by the handler. *)
Theorem page_after_dictionaries
  (files : list uploaded_file) api_key zip rs h :
  (process_pdfs files api_key).2 = Return (Some (zip, rs, h)) →
  (∀ k f, files !! k = Some f →
     ∃ d, (prompt_claude k f api_key).2 = Return (ODict d)) →
  ∃ rows,
    (results_data h rs).2 = Return rows
    ∧ length rows = length files
    ∧ handle_process files api_key
      = ((Core <$> (process_pdfs files api_key).1)
           ++ [StSuccess ProcessingComplete; DownloadButton zip;
               StSubheader; Dataframe rows], Return tt).
Proof.
  intros Hrun Hdicts.
  destruct (results_data_returns _ _ _ _ _ Hrun Hdicts) as (rows & Hrows & Hl).
  exists rows. split; [done |]. split; [done |].
  by rewrite handle_process_run, Hrun, Hrows.
Qed.

End PageProperties.

(** ** Further scenario runs *)

Lemma sanitize_filename_keeps_clean_witness :
  sanitize_filename "PN-100 Acme Bracket.pdf" = "PN-100 Acme Bracket.pdf".
Proof.
  apply sanitize_filename_keeps_clean.
  - repeat (apply List.Forall_cons; [reflexivity |]). apply List.Forall_nil.
  - cbn. lia.
Defined.

Lemma sanitize_filename_drops_extension_witness :
  sanitize_filename (copies 240 "A" +:+ ".pdf")
  = sanitize_filename (copies 240 "A").
Proof.
  apply sanitize_filename_drops_extension.
  assert (String.length (copies 240 "A") = 240) as ->
    by (vm_compute; reflexivity).
  lia.
Defined.

Lemma sanitize_filename_app_witness :
  sanitize_filename ("A/C" +:+ ":Unit")
  = sanitize_filename "A/C" +:+ sanitize_filename ":Unit".
Proof.
  apply sanitize_filename_app.
  assert (String.length ("A/C" +:+ ":Unit") = 8) as ->
    by (vm_compute; reflexivity).
  lia.
Defined.

Lemma prompt_claude_read_failure_witness :
  prompt_claude (scripted_service [says "acme"]) (table_loads further_answers)
    plain_encoding 0 unreadable "key"
  = ([FileRead "lost.pdf"; StError; LogError], Return (ODict [])).
Proof.
  apply (prompt_claude_read_failure _ _ _ 0 unreadable "key"
           (OtherException "closed file")).
  reflexivity.
Defined.

Lemma prompt_claude_request_witness :
  let run :=
    prompt_claude
      (sdk_client (scripted_transport
                     [[HttpRetryable (OtherException "overloaded");
                       HttpOk [TextBlock "acme"]]]))
      (table_loads further_answers) plain_encoding 0 job1 "key" in
  (∃ rest,
     run.1
     = [FileRead "job1.pdf"; FileSeek "job1.pdf"; LogDebug;
        ApiRequest 0 (request_for plain_encoding "key" (getbuffer job1))]
       ++ rest
     ∧ client_calls rest = 0)
  ∧ client_calls run.1 = 1
  ∧ 1 ≤ http_requests
          (scripted_transport
             [[HttpRetryable (OtherException "overloaded");
               HttpOk [TextBlock "acme"]]]) run.1
      ≤ 1 + max_retries.
Proof.
  apply (prompt_claude_request
           (scripted_transport
              [[HttpRetryable (OtherException "overloaded");
                HttpOk [TextBlock "acme"]]])
           (table_loads further_answers) plain_encoding
           0 job1 "key" (getbuffer job1));
    reflexivity.
Defined.

Lemma prompt_claude_first_block_witness :
  (prompt_claude (scripted_service [Return [TextBlock "array"; OtherBlock]])
     (table_loads further_answers) plain_encoding 0 job1 "key").2
  = Return (match table_loads further_answers "array" with
            | Return o => o
            | Raise _ => ODict []
            end).
Proof.
  apply (prompt_claude_first_block _ _ _ 0 job1 "key" (getbuffer job1)
           "array" [OtherBlock]); reflexivity.
Defined.

Lemma prompt_claude_silent_on_bad_json_witness :
  prompt_claude (scripted_service [says "not json"])
    (table_loads further_answers) plain_encoding 0 job1 "key"
  = ([FileRead "job1.pdf"; FileSeek "job1.pdf"; LogDebug;
      ApiRequest 0 (request_for plain_encoding "key" (getbuffer job1));
      JsonLoads "not json"; LogError; LogError], Return (ODict [])).
Proof.
  apply (proj1 (prompt_claude_silent_on_bad_json _ _ _ 0 job1 "key"
                  (getbuffer job1) eq_refl eq_refl) "not json" []);
    reflexivity.
Defined.

Lemma unprocessable_file_aborts_batch_witness :
  ∃ e, (run_further [says "acme"; says "array"] [job1; job2]).2 = Raise e.
Proof.
  unfold run_further.
  apply (unprocessable_file_aborts_batch _ _ _ _ [job1; job2] "key" 1 job2
           (OSeq true (λ _, false))).
  - reflexivity.
  - vm_compute; reflexivity.
  - reflexivity.
Defined.

Lemma batch_sleeps_per_file_witness :
  slept (run_further [says "acme"; says "not json"] [job1; job2]).1
  = 4 * length [job1; job2].
Proof.
  unfold run_further. eapply batch_sleeps_per_file.
  vm_compute; reflexivity.
Defined.

Lemma result_names_sanitized_witness :
  ∃ zip rs h r,
    (run_further [says "acme"; says "not json"] [job1; job2]).2
    = Return (Some (zip, rs, h))
    ∧ rs !! 1 = Some r
    ∧ Forall (λ c, PyStr.mem c (new_name r) = false) invalid_chars
    ∧ String.length (new_name r) ≤ 240
    ∧ (new_name r = EmptyString ↔ status r = "Error: No data extracted").
Proof.
  eexists _, _, _, _. split; [vm_compute; reflexivity |].
  split; [reflexivity |].
  eapply (result_names_sanitized
            (scripted_service [says "acme"; says "not json"])
            (table_loads further_answers) plain_encoding accepting
            [job1; job2] "key").
  - vm_compute; reflexivity.
  - apply list_elem_of_lookup. exists 1. reflexivity.
Defined.

Lemma result_status_among_nine_witness :
  ∃ zip rs h r,
    (run_further [says "acme"; says "notes"] [job1; job2]).2
    = Return (Some (zip, rs, h))
    ∧ rs !! 1 = Some r
    ∧ status r ∈ statuses.
Proof.
  eexists _, _, _, _. split; [vm_compute; reflexivity |].
  split; [reflexivity |].
  eapply (result_status_among_nine
            (scripted_service [says "acme"; says "notes"])
            (table_loads further_answers) plain_encoding accepting
            [job1; job2] "key").
  - vm_compute; reflexivity.
  - apply list_elem_of_lookup. exists 1. reflexivity.
Defined.

Lemma results_refer_to_own_objects_witness :
  ∃ zip rs h r,
    (run_further [says "acme"; says "notes"] [job1; job2]).2
    = Return (Some (zip, rs, h))
    ∧ rs !! 1 = Some r
    ∧ length h = length [job1; job2]
    ∧ extracted_data r = 1
    ∧ original_name r = "job2.pdf"
    ∧ h !! extracted_data r = Some (ODict (filled notes_record)).
Proof.
  assert (∃ x, (run_further [says "acme"; says "notes"] [job1; job2]).2
               = Return (Some x)) as [[[zip rs] h] Hrun]
    by (eexists; vm_compute; reflexivity).
  assert (∃ r, rs !! 1 = Some r) as [r Hr].
  { revert Hrun. vm_compute. intros [= <- <- <-]. by eexists. }
  destruct (results_refer_to_own_objects _ _ _ _ _ _ _ _ _ 1 job2
              (ODict notes_record) r Hrun)
    as (H1 & H2 & H3 & H4 & _).
  - reflexivity.
  - vm_compute; reflexivity.
  - exact Hr.
  - exists zip, rs, h, r. split; [exact Hrun |]. split; [exact Hr |].
    split; [exact H1 |]. split; [exact H2 |]. split; [exact H3 | exact H4].
Defined.

Lemma record_kept_unless_partial_witness :
  ∃ zip rs h r,
    (run_further [says "acme"; says "notes"] [job1; job2]).2
    = Return (Some (zip, rs, h))
    ∧ rs !! 0 = Some r
    ∧ h !! extracted_data r = Some (ODict acme_record).
Proof.
  eexists _, _, _, _. split; [vm_compute; reflexivity |].
  split; [reflexivity |].
  eapply (record_kept_unless_partial
            (scripted_service [says "acme"; says "notes"])
            (table_loads further_answers) plain_encoding accepting
            [job1; job2] "key" _ _ _ 0 job1).
  - vm_compute; reflexivity.
  - reflexivity.
  - vm_compute; reflexivity.
  - reflexivity.
  - left. reflexivity.
Defined.

Lemma stored_record_complete_witness :
  ∃ zip rs h d',
    (run_further [says "acme"; says "notes"] [job1; job2]).2
    = Return (Some (zip, rs, h))
    ∧ h !! 1 = Some (ODict d')
    ∧ Forall (λ field, field_missing d' field = false) required_fields
    ∧ dict_get "Notes" d' = Some (VStr "see drawing").
Proof.
  assert (∃ x, (run_further [says "acme"; says "notes"] [job1; job2]).2
               = Return (Some x)) as [[[zip rs] h] Hrun]
    by (eexists; vm_compute; reflexivity).
  destruct (stored_record_complete _ _ _ _ _ _ _ _ _ 1 job2 notes_record
              Hrun)
    as (d' & H1 & H2 & H3 & _).
  - reflexivity.
  - vm_compute; reflexivity.
  - discriminate.
  - exists zip, rs, h, d'. split; [exact Hrun |]. split; [exact H1 |].
    split; [exact H2 |]. rewrite H3; [reflexivity |]. compute_done.
Defined.

Lemma results_table_fails_on_non_dict_witness :
  ∃ zip rs h,
    (run_further [says "acme"; says "null"] [job1; job2]).2
    = Return (Some (zip, rs, h))
    ∧ (results_data h rs).2 = Raise AttributeError.
Proof.
  assert (∃ x, (run_further [says "acme"; says "null"] [job1; job2]).2
               = Return (Some x)) as [[[zip rs] h] Hrun]
    by (eexists; vm_compute; reflexivity).
  exists zip, rs, h. split; [exact Hrun |].
  apply (results_table_fails_on_non_dict _ _ _ _ _ _ _ _ _ 1 job2
           (OScalar false) Hrun).
  - reflexivity.
  - vm_compute; reflexivity.
  - discriminate.
Defined.

Lemma results_table_rows_witness :
  ∃ zip rs h rows,
    (run_further [says "acme"; says "not json"] [job1; job2]).2
    = Return (Some (zip, rs, h))
    ∧ (results_data h rs).2 = Return rows
    ∧ length rows = length [job1; job2].
Proof.
  assert (∃ x, (run_further [says "acme"; says "not json"] [job1; job2]).2
               = Return (Some x)) as [[[zip rs] h] Hrun]
    by (eexists; vm_compute; reflexivity).
  destruct (results_table_rows _ _ _ _ _ _ _ _ _ Hrun)
    as (rows & H1 & H2 & _).
  - intros [|[|k]] f Hf; [| |discriminate Hf];
      injection Hf as <-; eexists; vm_compute; reflexivity.
  - exists zip, rs, h, rows. split; [exact Hrun |].
    split; [exact H1 | exact H2].
Defined.

Lemma record_without_fields_renamed_witness :
  ∃ zip rs h r,
    (run_further [says "acme"; says "notes"] [job1; job2]).2
    = Return (Some (zip, rs, h))
    ∧ rs !! 1 = Some r
    ∧ new_name r = "Unknown Unknown Unknown.pdf"
    ∧ status r
      = "Partial success (missing: Customer, Part Number, Description)"
    ∧ ("Unknown Unknown Unknown.pdf", getbuffer job2) ∈ zip.
Proof.
  assert (∃ x, (run_further [says "acme"; says "notes"] [job1; job2]).2
               = Return (Some x)) as [[[zip rs] h] Hrun]
    by (eexists; vm_compute; reflexivity).
  destruct (record_without_fields_renamed
              (scripted_service [says "acme"; says "notes"])
              (table_loads further_answers) plain_encoding accepting
              [job1; job2] "key" zip rs h 1 job2 notes_record Hrun)
    as (r & H).
  - reflexivity.
  - vm_compute; reflexivity.
  - discriminate.
  - repeat (apply List.Forall_cons; [reflexivity |]). apply List.Forall_nil.
  - exists zip, rs, h, r. split; [exact Hrun | exact H].
Defined.

Lemma archive_size_witness :
  ∃ zip rs h,
    (run_further [says "acme"; says "not json"] [job1; job2]).2
    = Return (Some (zip, rs, h))
    ∧ length zip
      = length (List.filter
                  (λ r, negb (String.eqb (status r)
                                "Error: No data extracted")) rs)
    ∧ length zip ≤ length [job1; job2].
Proof.
  assert (∃ x, (run_further [says "acme"; says "not json"] [job1; job2]).2
               = Return (Some x)) as [[[zip rs] h] Hrun]
    by (eexists; vm_compute; reflexivity).
  exists zip, rs, h. split; [exact Hrun |].
  exact (archive_size _ _ _ _ _ _ _ _ _ Hrun).
Defined.

Lemma page_after_unprocessable_file_witness :
  ∃ e,
    (run_further [says "acme"; says "array"] [job1; job2]).2 = Raise e
    ∧ handle_process (scripted_service [says "acme"; says "array"])
        (table_loads further_answers) plain_encoding accepting
        [job1; job2] "key"
      = ((Core <$> (run_further [says "acme"; says "array"] [job1; job2]).1)
           ++ [StErrorProcessing e; LogProcessingError e], Return tt).
Proof.
  apply (page_after_unprocessable_file _ _ _ _ [job1; job2] "key" 1 job2
           (OSeq true (λ _, false))).
  - reflexivity.
  - vm_compute; reflexivity.
  - reflexivity.
Defined.

Lemma page_after_falsy_non_dict_witness :
  ∃ zip rs h,
    (run_further [says "acme"; says "null"] [job1; job2]).2
    = Return (Some (zip, rs, h))
    ∧ handle_process (scripted_service [says "acme"; says "null"])
        (table_loads further_answers) plain_encoding accepting
        [job1; job2] "key"
      = ((Core <$> (run_further [says "acme"; says "null"] [job1; job2]).1)
           ++ [StSuccess ProcessingComplete; DownloadButton zip;
               StSubheader; StErrorProcessing AttributeError;
               LogProcessingError AttributeError], Return tt).
Proof.
  assert (∃ x, (run_further [says "acme"; says "null"] [job1; job2]).2
               = Return (Some x)) as [[[zip rs] h] Hrun]
    by (eexists; vm_compute; reflexivity).
  exists zip, rs, h. split; [exact Hrun |].
  apply (page_after_falsy_non_dict _ _ _ _ [job1; job2] "key" zip rs h
           1 job2 (OScalar false) Hrun).
  - reflexivity.
  - vm_compute; reflexivity.
  - discriminate.
Defined.

Lemma page_after_dictionaries_witness :
  ∃ zip rs h rows,
    (run_further [says "acme"; says "notes"] [job1; job2]).2
    = Return (Some (zip, rs, h))
    ∧ (results_data h rs).2 = Return rows
    ∧ length rows = length [job1; job2]
    ∧ handle_process (scripted_service [says "acme"; says "notes"])
        (table_loads further_answers) plain_encoding accepting
        [job1; job2] "key"
      = ((Core <$> (run_further [says "acme"; says "notes"] [job1; job2]).1)
           ++ [StSuccess ProcessingComplete; DownloadButton zip;
               StSubheader; Dataframe rows], Return tt).
Proof.
  assert (∃ x, (run_further [says "acme"; says "notes"] [job1; job2]).2
               = Return (Some x)) as [[[zip rs] h] Hrun]
    by (eexists; vm_compute; reflexivity).
  destruct (page_after_dictionaries
              (scripted_service [says "acme"; says "notes"])
              (table_loads further_answers) plain_encoding accepting
              [job1; job2] "key" zip rs h Hrun)
    as (rows & H).
  - intros [|[|k]] f Hf; [| |discriminate Hf];
      injection Hf as <-; eexists; vm_compute; reflexivity.
  - exists zip, rs, h, rows. split; [exact Hrun | exact H].
Defined.

Lemma refused_operation_aborts_batch_witness :
  ∃ e',
    (process_pdfs (scripted_service [says "acme"; says "acme"])
       (table_loads further_answers) plain_encoding refusing_second_rename
       [job1; job2] "key").2 = Raise e'.
Proof.
  apply (refused_operation_aborts_batch
           (scripted_service [says "acme"; says "acme"])
           (table_loads further_answers) plain_encoding
           refusing_second_rename [job1; job2] "key" 1 job2 OSError).
  - reflexivity.
  - right. exists acme_record. split; [vm_compute; reflexivity |].
    split; [discriminate |]. left. reflexivity.
Defined.

Lemma batch_returns_unless_refused_witness :
  ∃ zip rs h,
    (run_further [says "acme"; says "null"] [job1; job2]).2
    = Return (Some (zip, rs, h))
    ∧ length rs = length [job1; job2].
Proof.
  apply (batch_returns_unless_refused
           (scripted_service [says "acme"; says "null"])
           (table_loads further_answers) plain_encoding accepting
           [job1; job2] "key").
  - discriminate.
  - reflexivity.
  - intros [|[|k]] f o Hf; [| |discriminate Hf];
      injection Hf as <-; vm_compute; intros [= <-]; reflexivity.
Defined.
